(** * Chunking engine of nestle-ai-chatbot: page.py, text_splitter.py

    A shallow embedding of [src/backend/page.py] and
    [src/backend/text_splitter.py], and the properties of the two
    splitting strategies.

    Conventions.
    - A Python [str] is a sequence of Unicode code points: [Py.str] is a list
      of code points, and a one-character string is its code point.
    - A Python [int] is a [Z].  Slices and subscripts follow Python for
      negative and out-of-range indices.
    - A generator is the list of values it has yielded together with the way
      it stopped: [Returned], [Raised e], or [OutOfFuel] when the bound on
      loop iterations and recursion depth given to the model was reached
      before the generator finished. *)

From stdpp Require Import gmap strings list.
From Stdlib Require Import ZArith Lia Sorted.

Local Open Scope Z_scope.

(** ** Python primitives used by the splitters *)

Module Py.

Definition codepoint := N.
Definition str := list codepoint.

Inductive exn := IndexError | ValueError.

(** A computation that returns a value or raises. *)
Inductive res (A : Type) :=
| Ok (a : A)
| Err (e : exn).
Arguments Ok {A} a.
Arguments Err {A} e.

Global Instance res_bind : MBind res := λ A B k r,
  match r with
  | Ok a => k a
  | Err e => Err e
  end.

(** [len(s)] *)
Definition len {A} (s : list A) : Z := Z.of_nat (length s).

(** A slice bound [i] on a sequence of length [n]: a negative bound counts
    from the end, and every bound is clamped to [0..n]. *)
Definition clamp (n i : Z) : Z :=
  if i <? 0 then Z.max (i + n) 0 else Z.min i n.

(** [s[lo:hi]] *)
Definition slice {A} (s : list A) (lo hi : Z) : list A :=
  let lo' := clamp (len s) lo in
  let hi' := clamp (len s) hi in
  take (Z.to_nat (hi' - lo')) (drop (Z.to_nat lo') s).

(** [s[:hi]] *)
Definition slice_to {A} (s : list A) (hi : Z) : list A :=
  slice s 0 hi.

(** [s[lo:]] *)
Definition slice_from {A} (s : list A) (lo : Z) : list A :=
  slice s lo (len s).

(** [s[i]]: a negative subscript counts from the end; out of range raises
    IndexError. *)
Definition getitem {A} (s : list A) (i : Z) : res A :=
  let j := if i <? 0 then i + len s else i in
  if j <? 0 then Err IndexError
  else match s !! Z.to_nat j with
       | Some a => Ok a
       | None => Err IndexError
       end.

(** [c in l] for a list [l] of one-character strings. *)
Definition contains (l : list codepoint) (c : codepoint) : bool :=
  existsb (N.eqb c) l.

(** [str.isspace] on one character (the code points Python treats as
    whitespace, which are also the ones [str.strip()] removes). *)
Definition isspace (c : codepoint) : bool :=
  contains
    [9; 10; 11; 12; 13; 28; 29; 30; 31; 32; 133; 160; 5760;
     8192; 8193; 8194; 8195; 8196; 8197; 8198; 8199; 8200; 8201; 8202;
     8232; 8233; 8239; 8287; 12288]%N c.

Fixpoint lstrip (s : str) : str :=
  match s with
  | [] => []
  | c :: s' => if isspace c then lstrip s' else s
  end.

Definition rstrip (s : str) : str := reverse (lstrip (reverse s)).

(** [s.strip()] *)
Definition strip (s : str) : str := rstrip (lstrip s).

(** Truth value of a string: [not s] is [negb (truthy s)]. *)
Definition truthy (s : str) : bool :=
  match s with
  | [] => false
  | _ => true
  end.

(** [int(a * b / 100)] and [int(a * (b / 100))] for ints [a], [b]: float
    division, then truncation towards zero.  The model is the exact
    quotient, which is what the code computes for every product of absolute
    value below 2^50: there the float quotient has the integer part of the
    exact one.  For larger products the float result can differ from it,
    and beyond the range of a float the code raises OverflowError; what is
    proved of [__init__] on arbitrary arguments carries that bound. *)
Definition int_percent (a b : Z) : Z := Z.quot (a * b) 100.

(** [range(start, stop, step)] as the list of its items; a zero step raises
    ValueError. *)
Definition range (start stop step : Z) : res (list Z) :=
  if step =? 0 then Err ValueError
  else
    let n := if 0 <? step then (stop - start + step - 1) / step
             else (start - stop - step - 1) / (- step) in
    Ok ((λ k, start + k * step) <$> seqZ 0 n).

(** A string literal of ASCII characters. *)
Definition lit (s : string) : str :=
  Ascii.N_of_ascii <$> String.list_ascii_of_string s.

(** An arbitrary metadata value ([typing.Any]). *)
Inductive value :=
| VStr (s : string)
| VInt (z : Z)
| VStrs (l : list string).

End Py.

(** ** page.py *)

Module Page.
Record t := mk {
  page_num : Z;
  offset : Z;
  text : Py.str;
  meta : gmap string Py.value
}.
End Page.

Module SplitPage.
Record t := mk {
  page_num : Z;
  text : Py.str;
  meta : gmap string Py.value
}.

(** [SplitPage(page_num=..., text=...)]: [meta] is not passed, so it is the
    dataclass default, a fresh empty dict. *)
Definition make (page_num : Z) (text : Py.str) : t := mk page_num text ∅.
End SplitPage.

(** ** Generators *)

Inductive stop := Returned | Raised (e : Py.exn) | OutOfFuel.

Record gen := Gen {
  yielded : list SplitPage.t;
  stopped : stop
}.

(** [return] with nothing yielded *)
Definition g_return : gen := Gen [] Returned.
(** [yield c] *)
Definition g_yield (c : SplitPage.t) : gen := Gen [c] Returned.
Definition g_raise (e : Py.exn) : gen := Gen [] (Raised e).
Definition g_out_of_fuel : gen := Gen [] OutOfFuel.

(** [yield from g] followed by the rest of the body [k]: the rest runs only
    when [g] returned. *)
Definition g_seq (g k : gen) : gen :=
  match stopped g with
  | Returned => Gen (yielded g ++ yielded k) (stopped k)
  | _ => g
  end.

(** An argument expression that may raise before the generator body runs. *)
Definition g_bind {A} (r : Py.res A) (k : A → gen) : gen :=
  match r with
  | Py.Ok a => k a
  | Py.Err e => g_raise e
  end.

(** ** text_splitter.py *)

(** The token-counting capability: [encoder.encode] of the tiktoken encoding
    for [ENCODING_MODEL], taken as a function from a text to its tokens;
    tokens are opaque. *)
Class Encoder := encode : Py.str → list N.

Definition STANDARD_WORD_BREAKS : list Py.codepoint :=
  [44; 59; 58; 32; 40; 41; 91; 93; 123; 125; 9; 10]%N.

Definition CJK_WORD_BREAKS : list Py.codepoint :=
  [12289; 65292; 65307; 65306; 65288; 65289; 12304; 12305; 12300; 12301;
   12302; 12303; 12308; 12309; 12296; 12297; 12298; 12299; 12310; 12311;
   12312; 12313; 12314; 12315; 12317; 12318; 12319; 12336; 8211; 8212;
   8216; 8217; 8218; 8219; 8220; 8221; 8222; 8223; 8249; 8250]%N.

Definition STANDARD_SENTENCE_ENDINGS : list Py.codepoint := [46; 33; 63]%N.
Definition CJK_SENTENCE_ENDINGS : list Py.codepoint :=
  [12290; 65281; 65311; 8252; 8263; 8264; 8265]%N.

Definition DEFAULT_SECTION_LENGTH : Z := 1000.
Definition DEFAULT_OVERLAP_PERCENT : Z := 10.

(** ["".join(p.text for p in pages)] *)
Definition join_text (pages : list Page.t) : Py.str :=
  concat (Page.text <$> pages).

Module SentenceTextSplitter.

Record t := mk {
  max_tokens_per_section : Z;
  max_section_length : Z;
  section_overlap : Z;
  sentence_search_limit : Z;
  sentence_endings : list Py.codepoint;
  word_breaks : list Py.codepoint
}.

(** [__init__] *)
Definition init (max_tokens_per_section max_section_length
                 overlap_percent sentence_search_limit : Z) : t :=
  {| max_tokens_per_section := max_tokens_per_section;
     max_section_length := max_section_length;
     section_overlap := Py.int_percent max_section_length overlap_percent;
     sentence_search_limit := sentence_search_limit;
     sentence_endings := STANDARD_SENTENCE_ENDINGS ++ CJK_SENTENCE_ENDINGS;
     word_breaks := STANDARD_WORD_BREAKS ++ CJK_WORD_BREAKS |}.

(** [__init__] with every argument at its default. *)
Definition default : t := init 500 DEFAULT_SECTION_LENGTH DEFAULT_OVERLAP_PERCENT 100.

(** The [for i in range(len(pages) - 1)] loop of [_find_page], on the
    pages from index [i] on: [Some n] when the loop returns [n]. *)
Fixpoint find_page_loop (pages : list Page.t) (offset : Z) : option Z :=
  match pages with
  | p :: ((q :: _) as rest) =>
      if (Page.offset p <=? offset) && (offset <? Page.offset q)
      then Some (Page.page_num p)
      else find_page_loop rest offset
  | _ => None
  end.

(** [_find_page]: [pages[-1]] raises IndexError on an empty list. *)
Definition _find_page (pages : list Page.t) (offset : Z) : Py.res Z :=
  match find_page_loop pages offset with
  | Some n => Py.Ok n
  | None =>
      match last pages with
      | Some p => Py.Ok (Page.page_num p)
      | None => Py.Err Py.IndexError
      end
  end.

(** [text[i] in chars] *)
Definition char_in (text : Py.str) (i : Z) (chars : list Py.codepoint)
  : Py.res bool :=
  c ← Py.getitem text i; Py.Ok (Py.contains chars c).

(** The [for offset in range(boundary)] loop of [split_page_by_max_tokens]
    over the remaining offsets: the value of [split_pos] after the loop,
    [-1] when it ends without [break]. *)
Fixpoint search_boundary (self : t) (text : Py.str) (length center : Z)
         (offsets : list Z) : Py.res Z :=
  match offsets with
  | [] => Py.Ok (-1)
  | offset :: rest =>
      let left := center - offset in
      let right := center + offset in
      l ← (if 0 <? left then char_in text left (sentence_endings self)
           else Py.Ok false);
      if l : bool then Py.Ok (left + 1)
      else
        r ← (if right <? length then char_in text right (sentence_endings self)
             else Py.Ok false);
        if r : bool then Py.Ok (right + 1)
        else search_boundary self text length center rest
  end.

(** The fallback of [split_page_by_max_tokens]: half-split with overlap. *)
Definition fallback_halves (text : Py.str) : Py.str * Py.str :=
  let length := Py.len text in
  let mid := length / 2 in
  let overlap := Py.int_percent length DEFAULT_OVERLAP_PERCENT in
  let first := Py.slice_to text (mid + overlap) in
  let second := Py.slice_from text (mid - overlap) in
  (first, second).

(** The two texts [split_page_by_max_tokens] recurses on. *)
Definition halves (text : Py.str) (split_pos : Z) : Py.str * Py.str :=
  if split_pos <? 0 then fallback_halves text
  else (Py.slice_to text split_pos, Py.slice_from text split_pos).

(** [split_page_by_max_tokens]; [fuel] bounds the recursion depth. *)
Fixpoint split_page_by_max_tokens `{Encoder} (self : t) (fuel : nat)
         (page_num : Z) (text : Py.str) : gen :=
  match fuel with
  | O => g_out_of_fuel
  | S fuel =>
      let tokens := encode text in
      if Py.len tokens <=? max_tokens_per_section self
      then g_yield (SplitPage.make page_num text)
      else
        let length := Py.len text in
        let center := length / 2 in
        let boundary := length / 3 in
        g_bind (search_boundary self text length center (seqZ 0 boundary))
          (λ split_pos,
             let '(first, second) := halves text split_pos in
             g_seq (split_page_by_max_tokens self fuel page_num first)
                   (split_page_by_max_tokens self fuel page_num second))
  end.

(** The inner [while] of [split_pages], from the state
    [(cursor, last_word_break)]: the state when the loop exits.  The loop
    runs at most [total_len - end_] times; [fuel] is given that value. *)
Fixpoint scan (self : t) (all_text : Py.str) (total_len end_ : Z)
         (fuel : nat) (cursor last_word_break : Z) : Py.res (Z * Z) :=
  match fuel with
  | O => Py.Ok (cursor, last_word_break)
  | S fuel =>
      if (cursor <? total_len)
         && (cursor - end_ <? sentence_search_limit self)
      then
        c ← Py.getitem all_text cursor;
        if Py.contains (sentence_endings self) c
        then Py.Ok (cursor, last_word_break)
        else
          scan self all_text total_len end_ fuel (cursor + 1)
            (if Py.contains (word_breaks self) c then cursor
             else last_word_break)
      else Py.Ok (cursor, last_word_break)
  end.

(** The window-extension step: from the initial [end_] of a window, the
    cursor and word break where the scan stopped. *)
Definition extend (self : t) (all_text : Py.str) (total_len end_ : Z)
  : Py.res (Z * Z) :=
  scan self all_text total_len end_ (Z.to_nat (total_len - end_)) end_ (-1).

(** The value of [end] after the [if]/[else] that follows the scan. *)
Definition cut (total_len cursor last_word_break : Z) : Z :=
  if (cursor <? total_len) && (0 <? last_word_break)
  then last_word_break + 1
  else cursor.

(** The [while start < total_len] loop of [split_pages]; [fuel] bounds the
    number of iterations and [rfuel] the recursion depth of each call of
    [split_page_by_max_tokens]. *)
Fixpoint window_loop `{Encoder} (self : t) (pages : list Page.t)
         (all_text : Py.str) (total_len : Z) (rfuel fuel : nat)
         (start : Z) : gen :=
  match fuel with
  | O => g_out_of_fuel
  | S fuel =>
      if start <? total_len then
        let end_ := Z.min (start + max_section_length self) total_len in
        g_bind (extend self all_text total_len end_)
          (λ '(cursor, last_word_break),
             let end_ := cut total_len cursor last_word_break in
             let chunk := Py.slice all_text start end_ in
             g_bind (_find_page pages start)
               (λ page_num,
                  g_seq (split_page_by_max_tokens self rfuel page_num chunk)
                        (window_loop self pages all_text total_len rfuel fuel
                           (end_ - section_overlap self))))
      else g_return
  end.

(** [split_pages] *)
Definition split_pages `{Encoder} (self : t) (fuel : nat)
           (pages : list Page.t) : gen :=
  let all_text := join_text pages in
  if negb (Py.truthy (Py.strip all_text)) then g_return
  else
    let total_len := Py.len all_text in
    if total_len <=? max_section_length self then
      g_bind (_find_page pages 0)
        (λ page_num, split_page_by_max_tokens self fuel page_num all_text)
    else window_loop self pages all_text total_len fuel fuel 0.

End SentenceTextSplitter.

Module SimpleTextSplitter.

Record t := mk { max_object_length : Z }.

(** [__init__] with its default argument. *)
Definition default : t := mk DEFAULT_SECTION_LENGTH.

(** [split_pages] *)
Definition split_pages (self : t) (pages : list Page.t) : gen :=
  let all_text := join_text pages in
  if negb (Py.truthy (Py.strip all_text)) then g_return
  else
    let length := Py.len all_text in
    if length <=? max_object_length self
    then g_yield (SplitPage.make 0 all_text)
    else
      g_bind (Py.range 0 length (max_object_length self))
        (λ idxs,
           Gen ((λ idx,
                   let chunk :=
                     Py.slice all_text idx (idx + max_object_length self) in
                   SplitPage.make (idx / max_object_length self) chunk)
                  <$> idxs)
               Returned).

End SimpleTextSplitter.

(** [TextSplitter]: the abstract base class of the two strategies. *)
Class TextSplitter (S : Type) := split_pages : S → nat → list Page.t → gen.

Global Instance sentence_text_splitter `{Encoder}
  : TextSplitter SentenceTextSplitter.t :=
  SentenceTextSplitter.split_pages.

Global Instance simple_text_splitter : TextSplitter SimpleTextSplitter.t :=
  λ self _ pages, SimpleTextSplitter.split_pages self pages.

(** ** splitter.py: the choice of a strategy and the metadata of a slice *)

Module Splitter.

Definition MAX_TOKENS : Z := 450.
Definition MAX_OBJECT_LEN : Z := 1200.

(** [SentenceTextSplitter(max_tokens_per_section=MAX_TOKENS)] *)
Definition sentence_splitter : SentenceTextSplitter.t :=
  SentenceTextSplitter.init MAX_TOKENS DEFAULT_SECTION_LENGTH
    DEFAULT_OVERLAP_PERCENT 100.

(** [SimpleTextSplitter(max_object_length=MAX_OBJECT_LEN)] *)
Definition simple_splitter : SimpleTextSplitter.t :=
  SimpleTextSplitter.mk MAX_OBJECT_LEN.

(** A splitter object is of one of the two classes. *)
Inductive splitter :=
| Sentence (s : SentenceTextSplitter.t)
| Simple (s : SimpleTextSplitter.t).

Global Instance splitter_text_splitter `{Encoder} : TextSplitter splitter :=
  λ self fuel pages,
    match self with
    | Sentence s => split_pages s fuel pages
    | Simple s => split_pages s fuel pages
    end.

Definition choose_splitter (char_count : Z) : splitter :=
  if MAX_OBJECT_LEN <? char_count then Sentence sentence_splitter
  else Simple simple_splitter.

(** [sum(len(p.text) for p in pages)] *)
Definition total_chars (pages : list Page.t) : Z :=
  foldr (λ p acc, Py.len (Page.text p) + acc) 0 pages.

(** The generator [slice_one] iterates over:
    [choose_splitter(total_chars).split_pages(pages)]. *)
Definition chosen_split_pages `{Encoder} (fuel : nat) (pages : list Page.t)
  : gen :=
  split_pages (choose_splitter (total_chars pages)) fuel pages.

(** [meta = pages[split.page_num].meta] of [slice_one] *)
Definition slice_meta (pages : list Page.t) (split : SplitPage.t)
  : Py.res (gmap string Py.value) :=
  p ← Py.getitem pages (SplitPage.page_num split); Py.Ok (Page.meta p).

End Splitter.

(** ** More of Python's built-ins, for splitter.py and upload_to_neo4j.py *)

Module PyStr.

(** The digits of [str(n)] for [0 <= n], most significant first; [fuel] is
    at least the number of digits. *)
Fixpoint digits_go (fuel : nat) (n : Z) (acc : Py.str) : Py.str :=
  match fuel with
  | O => acc
  | S fuel =>
      let acc := (48 + Z.to_N (n mod 10))%N :: acc in
      if n / 10 =? 0 then acc else digits_go fuel (n / 10) acc
  end.

Definition digits (n : Z) : Py.str :=
  digits_go (S (Z.to_nat (Z.log2 n))) n [].

(** Left padding with the character zero up to [width]. *)
Definition zfill (width : nat) (s : Py.str) : Py.str :=
  replicate (width - length s) 48%N ++ s.

(** [f"{n:03}"]: the sign, if any, then the digits padded with zeros to a
    total width of three. *)
Definition format_03 (n : Z) : Py.str :=
  if n <? 0 then 45%N :: zfill 2 (digits (- n)) else zfill 3 (digits n).

(** [int(s)] for a string of decimal digits. *)
Definition decimal_value (s : Py.str) : Z :=
  foldl (λ acc c, 10 * acc + (Z.of_N c - 48)) 0 s.

(** [s.lstrip(c)] and [s.rstrip(c)] for a single character [c] *)
Fixpoint lstrip_char (c : Py.codepoint) (s : Py.str) : Py.str :=
  match s with
  | [] => []
  | d :: s' => if N.eqb d c then lstrip_char c s' else s
  end.

Definition rstrip_char (c : Py.codepoint) (s : Py.str) : Py.str :=
  reverse (lstrip_char c (reverse s)).

End PyStr.

(** ** splitter.py: loading the pages and naming the slices *)

Module Slices.

(** The parsed JSON document, as far as [load_pages] reads it: the value of
    ["metadata"], an object, and the value of ["text"], a string or a list of
    strings; either key may be missing. *)
Record doc := Doc {
  doc_metadata : option (gmap string Py.value);
  doc_text : option (Py.str + list Py.str)
}.

(** [d.setdefault(key, value)], for the dict it leaves behind *)
Definition setdefault (key : string) (value : Py.value)
           (d : gmap string Py.value) : gmap string Py.value :=
  match d !! key with
  | Some _ => d
  | None => <[key := value]> d
  end.

(** The three [meta.setdefault] calls of [load_pages]; [path] is [str(fp)]
    and [stem] is [fp.stem]. *)
Definition fill_meta (path stem : string) (meta : gmap string Py.value)
  : gmap string Py.value :=
  let meta := setdefault "url" (Py.VStr path) meta in
  let meta := setdefault "title" (Py.VStr stem) meta in
  setdefault "category"
    (default (Py.VStr "Uncategorized") (meta !! "category")) meta.

(** The [for idx, text in enumerate(blocks)] loop of [load_pages], from the
    state [(idx, offset)]. *)
Fixpoint load_blocks (meta : gmap string Py.value) (idx offset : Z)
         (blocks : list Py.str) : list Page.t :=
  match blocks with
  | [] => []
  | text :: blocks =>
      Page.mk idx offset text meta
      :: load_blocks meta (idx + 1) (offset + Py.len text) blocks
  end.

(** [load_pages], after the file is read and parsed. *)
Definition load_pages (path stem : string) (d : doc) : list Page.t :=
  let meta := fill_meta path stem (default ∅ (doc_metadata d)) in
  let blocks :=
    match default (inr []) (doc_text d) with
    | inl text => [text]
    | inr blocks => blocks
    end in
  load_blocks meta 0 0 blocks.

(** [make_id]; [b64] is
    [base64.urlsafe_b64encode(stem.encode()).decode("ascii")], the encoding
    being the standard library's. *)
Definition make_id (b64 : Py.str) (index : Z) : Py.str :=
  PyStr.rstrip_char 61%N b64 ++ Py.lit "__" ++ PyStr.format_03 index.

End Slices.

(** ** upload_to_neo4j.py: batching *)

Module Upload.

Definition BATCH_SIZE_NEO4J : Z := 500.

(** The [while True] loop of [batches] over the items left in the iterator;
    [fuel] bounds the number of iterations. *)
Fixpoint batches_loop {A} (fuel : nat) (it : list A) (size : nat)
  : list (list A) :=
  match fuel with
  | O => []
  | S fuel =>
      let chunk := take size it in
      match chunk with
      | [] => []
      | _ => chunk :: batches_loop fuel (drop size it) size
      end
  end.

(** [sys.maxsize], of a 64-bit build of CPython. *)
Definition sys_maxsize : Z := 2 ^ 63 - 1.

(** [batches] on a finite iterable: the chunks it yields, or the ValueError
    that [itertools.islice] raises for a [size] that is negative or above
    [sys.maxsize].  Every iteration but the last takes an item, so one more
    than the number of items is enough for the loop. *)
Definition batches {A} (iterable : list A) (size : Z) : Py.res (list (list A)) :=
  if (size <? 0) || (sys_maxsize <? size) then Py.Err Py.ValueError
  else Py.Ok (batches_loop (S (length iterable)) iterable (Z.to_nat size)).

(** A value, or the KeyError that a subscript [d[key]] of a dict raises for
    a missing key. *)
Inductive keyed (A : Type) :=
| Got (a : A)
| KeyError (key : string).
Arguments Got {A} a.
Arguments KeyError {A} key.

Global Instance keyed_bind : MBind keyed := λ A B k r,
  match r with
  | Got a => k a
  | KeyError key => KeyError key
  end.

Definition subscript (d : gmap string Py.value) (key : string)
  : keyed Py.value :=
  match d !! key with
  | Some v => Got v
  | None => KeyError key
  end.

(** One item of the [payload] list of [upload]. *)
Record item := Item {
  item_id : Py.value;
  item_url : Py.value;
  item_title : Py.value;
  item_category : Py.value;
  item_content : Py.value;
  item_embedding : Py.value;
  item_images : Py.value;
  item_image_titles : Py.value
}.

(** The dict display of the comprehension in [upload], for one slice [d]:
    the values are evaluated in the order they are written, and the default
    [d["title"]] of [d.get("website_title", ...)] is evaluated before the
    call. *)
Definition payload_item (d : gmap string Py.value) : keyed item :=
  id ← subscript d "id";
  url ← subscript d "url";
  title ← subscript d "title";
  content ← subscript d "content";
  embedding ← subscript d "embedding";
  Got {| item_id := id;
         item_url := url;
         item_title := default title (d !! "website_title");
         item_category := default (Py.VStr "Uncategorized") (d !! "category");
         item_content := content;
         item_embedding := embedding;
         item_images := default (Py.VStrs []) (d !! "images");
         item_image_titles := default (Py.VStrs []) (d !! "image_titles") |}.

End Upload.

(** ** backend/main.py: the test for general conversation *)

Module Backend.

(** [s.startswith(word)] *)
Fixpoint startswith (s word : Py.str) {struct word} : bool :=
  match word, s with
  | [], _ => true
  | _ :: _, [] => false
  | w :: word, c :: s => N.eqb w c && startswith s word
  end.

(** [word in s] for strings: [word] occurs in [s]. *)
Fixpoint str_contains (s word : Py.str) : bool :=
  startswith s word
  || match s with
     | [] => false
     | _ :: s' => str_contains s' word
     end.

Definition GENERAL_WORDS : list Py.str :=
  Py.lit <$> ["hello"; "hi"; "how are you"; "what's up"; "who are you";
              "tell me a joke"]%string.

(** [is_general] of [search]; [user_input] is the query in lower case. *)
Definition is_general (user_input : Py.str) : bool :=
  existsb (str_contains user_input) GENERAL_WORDS.

End Backend.

(** ** Predicates of the properties *)

(** [t] occurs in [s] as a contiguous run of items. *)
Definition substring {A} (t s : list A) : Prop :=
  ∃ pre post, s = pre ++ t ++ post.

Definition le_offset (p q : Page.t) : Prop := Page.offset p ≤ Page.offset q.

(** Pages in order of [offset] (equal offsets allowed: an empty page). *)
Definition sorted_by_offset (pages : list Page.t) : Prop :=
  Sorted le_offset pages.

(** [c] occurs in [t] at offset [o]. *)
Definition occurs_at {A} (c : list A) (o : nat) (t : list A) : Prop :=
  take (length c) (drop o t) = c.

(** Every position of [t] lies inside an occurrence of one of the chunks. *)
Definition covered {A} (t : list A) (chunks : list (list A)) : Prop :=
  ∀ i : nat, (i < length t)%nat →
    ∃ c o, c ∈ chunks ∧ occurs_at c o t ∧ (o ≤ i < o + length c)%nat.

(** ** Inputs used in the examples below *)

Module Examples.

(** A token-counting capability that makes one token of every character. *)
Definition char_encoder : Encoder := λ text, text.

(** A document of one page holding [s], with metadata [m]. *)
Definition one_page (s : string) (m : gmap string Py.value) : list Page.t :=
  [Page.mk 0 0 (Py.lit s) m].

(** Three pages of 5, 4 and 3 characters. *)
Definition three_pages : list Page.t :=
  [Page.mk 0 0 (Py.lit "Hello") ∅;
   Page.mk 1 5 (Py.lit " big") ∅;
   Page.mk 2 9 (Py.lit " sea") ∅].

(** Two pages of whitespace: two spaces; a newline and a tab. *)
Definition blank_pages : list Page.t :=
  [Page.mk 0 0 (Py.lit "  ") ∅; Page.mk 1 2 [10; 9]%N ∅].

(** A page of 1001 letters [a], one more than [DEFAULT_SECTION_LENGTH]. *)
Definition long_page : list Page.t :=
  [Page.mk 0 0 (replicate 1001 97%N) ∅].

(** A page with metadata, as [load_pages] of splitter.py builds it. *)
Definition page_with_meta : list Page.t :=
  one_page "Hello world."
    {[ "url" := Py.VStr "https://example.org/a";
       "title" := Py.VStr "a" ]}.

End Examples.

(** * Properties *)

(** ** The splitters on small inputs *)

(** A text within the token budget is one chunk, the whole text, on page 0. *)
Example sentence_split_one_chunk :
  split_pages (TextSplitter := @sentence_text_splitter Examples.char_encoder)
    SentenceTextSplitter.default 1
    (Examples.one_page "Hello world. This is a test!" ∅)
  = Gen [SplitPage.make 0 (Py.lit "Hello world. This is a test!")] Returned.
Proof. reflexivity. Qed.

(** With a budget of ten tokens the text is cut after its first sentence, and
    each part, having no sentence ending near its middle, is halved with
    overlap. *)
Example sentence_split_by_tokens :
  split_pages (TextSplitter := @sentence_text_splitter Examples.char_encoder)
    (SentenceTextSplitter.init 10 1000 10 100) 3
    (Examples.one_page "Hello world. This is a test!" ∅)
  = Gen [SplitPage.make 0 (Py.lit "Hello w");
         SplitPage.make 0 (Py.lit " world.");
         SplitPage.make 0 (Py.lit " This is ");
         SplitPage.make 0 (Py.lit "s a test!")] Returned.
Proof. reflexivity. Qed.

(** Fixed-length windows; [page_num] is the ordinal of the window. *)
Example simple_split_windows :
  split_pages (SimpleTextSplitter.mk 3) 0 (Examples.one_page "abcdefgh" ∅)
  = Gen [SplitPage.make 0 (Py.lit "abc");
         SplitPage.make 1 (Py.lit "def");
         SplitPage.make 2 (Py.lit "gh")] Returned.
Proof. reflexivity. Qed.

(** A zero [max_object_length] makes [range] raise. *)
Example simple_split_zero_length :
  split_pages (SimpleTextSplitter.mk 0) 0 (Examples.one_page "ab" ∅)
  = Gen [] (Raised Py.ValueError).
Proof. reflexivity. Qed.

(** ** Python primitives *)

Section py_facts.
Context {A : Type}.
Implicit Types s : list A.

Lemma len_nonneg s : 0 ≤ Py.len s.
Proof. unfold Py.len. lia. Qed.

Lemma len_app s t : Py.len (s ++ t) = Py.len s + Py.len t.
Proof. unfold Py.len. rewrite length_app. lia. Qed.

Lemma clamp_range n i : 0 ≤ n → 0 ≤ Py.clamp n i ≤ n.
Proof. unfold Py.clamp. intros. destruct (Z.ltb_spec i 0); lia. Qed.

Lemma clamp_id n i : 0 ≤ i ≤ n → Py.clamp n i = i.
Proof. unfold Py.clamp. intros. destruct (Z.ltb_spec i 0); lia. Qed.

(** With bounds inside the sequence, slices are [take] and [drop]. *)
Lemma slice_to_take s k :
  0 ≤ k ≤ Py.len s → Py.slice_to s k = take (Z.to_nat k) s.
Proof.
  intros Hk. unfold Py.slice_to, Py.slice.
  rewrite !clamp_id by (pose proof (len_nonneg s); lia).
  simpl. by rewrite Z.sub_0_r.
Qed.

Lemma slice_from_drop s k :
  0 ≤ k ≤ Py.len s → Py.slice_from s k = drop (Z.to_nat k) s.
Proof.
  intros Hk. unfold Py.slice_from, Py.slice.
  rewrite !clamp_id by lia.
  apply take_ge. rewrite length_drop. unfold Py.len in *. lia.
Qed.

Lemma len_slice_to s k : 0 ≤ k ≤ Py.len s → Py.len (Py.slice_to s k) = k.
Proof.
  intros Hk. rewrite slice_to_take by done.
  unfold Py.len in *. rewrite length_take. lia.
Qed.

Lemma len_slice_from s k :
  0 ≤ k ≤ Py.len s → Py.len (Py.slice_from s k) = Py.len s - k.
Proof.
  intros Hk. rewrite slice_from_drop by done.
  unfold Py.len in *. rewrite length_drop. lia.
Qed.

Lemma substring_refl s : substring s s.
Proof. exists [], []. by rewrite app_nil_r. Qed.

Lemma substring_trans t u s : substring t u → substring u s → substring t s.
Proof.
  intros (p1 & q1 & ->) (p2 & q2 & ->).
  exists (p2 ++ p1), (q1 ++ q2). by rewrite <- !app_assoc.
Qed.

Lemma slice_substring s lo hi : substring (Py.slice s lo hi) s.
Proof.
  unfold Py.slice.
  set (a := Z.to_nat (Py.clamp (Py.len s) lo)).
  set (n := Z.to_nat _).
  exists (take a s), (drop n (drop a s)).
  by rewrite take_drop, take_drop.
Qed.

Lemma getitem_in_range s i :
  0 ≤ i < Py.len s → ∃ a, Py.getitem s i = Py.Ok a.
Proof.
  intros Hi. unfold Py.getitem.
  destruct (Z.ltb_spec i 0); [lia|].
  destruct (Z.ltb_spec i 0); [lia|].
  destruct (s !! Z.to_nat i) eqn:E; [eauto|].
  apply lookup_ge_None in E. unfold Py.len in *. lia.
Qed.

End py_facts.

(** A string strips to the empty string exactly when all its characters are
    whitespace. *)
Lemma lstrip_nil s : Py.lstrip s = [] ↔ Forall (λ c, Py.isspace c = true) s.
Proof.
  induction s as [|c s IH]; simpl.
  - split; [constructor | done].
  - destruct (Py.isspace c) eqn:E.
    + rewrite IH. split; [by constructor | by inversion 1].
    + split; [done | inversion 1; congruence].
Qed.

Lemma lstrip_suffix s : ∃ pre, s = pre ++ Py.lstrip s.
Proof.
  induction s as [|c s [pre IH]]; simpl.
  - by exists [].
  - destruct (Py.isspace c).
    + exists (c :: pre). simpl. by f_equal.
    + by exists [].
Qed.

Lemma lstrip_head s c t : Py.lstrip s = c :: t → Py.isspace c = false.
Proof.
  induction s as [|d s IH]; simpl; [done|].
  destruct (Py.isspace d) eqn:E; [done|]. congruence.
Qed.

Lemma strip_nil s : Py.strip s = [] ↔ Forall (λ c, Py.isspace c = true) s.
Proof.
  unfold Py.strip, Py.rstrip. split.
  - intros H. apply (f_equal reverse) in H. rewrite reverse_involutive in H.
    simpl in H. apply lstrip_nil in H. rewrite Forall_reverse in H.
    destruct (Py.lstrip s) as [|c t] eqn:E.
    + by apply lstrip_nil.
    + apply lstrip_head in E. inversion H as [|? ? Hc _]. by rewrite E in Hc.
  - intros H. apply lstrip_nil in H. by rewrite H.
Qed.

(** The guard [if not all_text.strip(): return] is taken exactly on a buffer
    of whitespace. *)
Lemma blank_guard s :
  negb (Py.truthy (Py.strip s)) = true ↔ Forall (λ c, Py.isspace c = true) s.
Proof.
  rewrite <- strip_nil. destruct (Py.strip s); simpl; split; done.
Qed.

(** ** The page-offset locator *)

Section find_page.
Import SentenceTextSplitter.

Lemma le_offset_trans : Transitive le_offset.
Proof. unfold le_offset. intros p q r. lia. Qed.

Lemma sorted_strongly pages :
  sorted_by_offset pages → StronglySorted le_offset pages.
Proof. apply Sorted_StronglySorted. apply le_offset_trans. Qed.

(** The loop returns at the first pair of neighbours around [offset]; in
    sorted pages no earlier pair is around it. *)
Lemma find_page_loop_hit pages offset i p q :
  StronglySorted le_offset pages →
  pages !! i = Some p → pages !! S i = Some q →
  Page.offset p ≤ offset < Page.offset q →
  find_page_loop pages offset = Some (Page.page_num p).
Proof.
  intros Hs. revert i.
  induction Hs as [|p0 rest Hs IH Hall]; intros i Hp Hq Hoff; [done|].
  destruct rest as [|q0 rest]; [by destruct i|].
  destruct i as [|i]; simpl in Hp, Hq; simplify_eq.
  - simpl. destruct (Z.leb_spec (Page.offset p) offset); [|lia].
    destruct (Z.ltb_spec offset (Page.offset q)); [done|lia].
  - assert (Page.offset q0 ≤ Page.offset p) as Hle.
    { inversion Hs as [|? ? _ Hq0]; subst.
      destruct i as [|i]; simpl in Hp; simplify_eq; [done|].
      rewrite Forall_forall in Hq0. apply Hq0.
      by eapply list_elem_of_lookup_2. }
    change (find_page_loop (p0 :: q0 :: rest) offset) with
      (if (Page.offset p0 <=? offset) && (offset <? Page.offset q0)
       then Some (Page.page_num p0)
       else find_page_loop (q0 :: rest) offset).
    destruct (Z.ltb_spec offset (Page.offset q0)); [lia|].
    rewrite andb_false_r. by eapply IH.
Qed.

(** At or beyond the start of the last page the loop finds no pair. *)
Lemma find_page_loop_miss pages offset p :
  StronglySorted le_offset pages →
  last pages = Some p → Page.offset p ≤ offset →
  find_page_loop pages offset = None.
Proof.
  intros Hs. induction Hs as [|p0 rest Hs IH Hall]; intros Hl Hoff; [done|].
  destruct rest as [|q0 rest]; [done|].
  change (find_page_loop (p0 :: q0 :: rest) offset) with
    (if (Page.offset p0 <=? offset) && (offset <? Page.offset q0)
     then Some (Page.page_num p0)
     else find_page_loop (q0 :: rest) offset).
  assert (Page.offset q0 ≤ Page.offset p) as Hle.
  { destruct rest as [|r rest]; simpl in Hl; simplify_eq; [done|].
    inversion Hs as [|? ? _ Hq0]; subst.
    rewrite Forall_forall in Hq0. apply Hq0.
    apply list_elem_of_lookup.
    change (last (r :: rest) = Some p) in Hl.
    rewrite last_lookup in Hl. eauto. }
  destruct (Z.ltb_spec offset (Page.offset q0)); [lia|].
  rewrite andb_false_r. apply IH; [|done].
  by rewrite <- Hl.
Qed.

(** On a non-empty list the locator returns a page number. *)
Lemma find_page_no_raise (pages : list Page.t) (offset : Z) :
  pages ≠ [] → ∃ n, _find_page pages offset = Py.Ok n.
Proof.
  intros Hne. unfold _find_page.
  destruct (find_page_loop pages offset); [eauto|].
  destruct (last pages) eqn:E; [eauto|].
  by apply last_None in E.
Qed.

(** C7.  For a non-empty list of pages sorted by offset and a non-negative
    character offset, [_find_page] returns the [page_num] of the page whose
    half-open range between its own offset and the next page's offset
    contains the offset; an offset at or beyond the start of the last page
    resolves to the last page; on a single-page list it returns that page's
    [page_num]; and it raises no exception. *)
Theorem find_page_locates (pages : list Page.t) (offset : Z) :
  pages ≠ [] → sorted_by_offset pages → 0 ≤ offset →
  (∀ i p q,
     pages !! i = Some p → pages !! S i = Some q →
     Page.offset p ≤ offset < Page.offset q →
     _find_page pages offset = Py.Ok (Page.page_num p))
  ∧ (∀ p,
       last pages = Some p → Page.offset p ≤ offset →
       _find_page pages offset = Py.Ok (Page.page_num p))
  ∧ (∀ p, pages = [p] → _find_page pages offset = Py.Ok (Page.page_num p))
  ∧ (∃ n, _find_page pages offset = Py.Ok n).
Proof.
  intros Hne Hs%sorted_strongly _. split_and!; [| | |by apply find_page_no_raise].
  - intros i p q Hp Hq Hoff. unfold _find_page.
    by erewrite find_page_loop_hit.
  - intros p Hl Hoff. unfold _find_page.
    erewrite find_page_loop_miss by done. by rewrite Hl.
  - by intros p ->.
Qed.

(** The locator on the three example pages: offsets 0..4 are page 0, 5..8
    page 1, and 9 on page 2. *)
Lemma find_page_locates_witness :
  _find_page Examples.three_pages 6 = Py.Ok 1
  ∧ _find_page Examples.three_pages 40 = Py.Ok 2
  ∧ _find_page (Examples.one_page "Hello" ∅) 3 = Py.Ok 0.
Proof.
  assert (sorted_by_offset Examples.three_pages) as Hs.
  { unfold sorted_by_offset, le_offset.
    repeat first [apply Sorted_cons | apply HdRel_cons
                 | apply Sorted_nil | apply HdRel_nil]; simpl; lia. }
  destruct (find_page_locates Examples.three_pages 6) as (H1 & _ & _ & _);
    [done | exact Hs | lia |].
  destruct (find_page_locates Examples.three_pages 40) as (_ & H2 & _ & _);
    [done | exact Hs | lia |].
  destruct (find_page_locates (Examples.one_page "Hello" ∅) 3)
    as (_ & _ & H3 & _);
    [done | apply Sorted_cons; [apply Sorted_nil | apply HdRel_nil] | lia |].
  split_and!.
  - apply (H1 1%nat (Page.mk 1 5 (Py.lit " big") ∅)
              (Page.mk 2 9 (Py.lit " sea") ∅)); [done | done | simpl; lia].
  - apply (H2 (Page.mk 2 9 (Py.lit " sea") ∅)); [done | simpl; lia].
  - by apply (H3 (Page.mk 0 0 (Py.lit "Hello") ∅)).
Defined.

End find_page.

(** ** The fallback bisection of the token recursion *)

Section fallback.
Import SentenceTextSplitter.

Lemma int_percent_tenth n :
  0 ≤ n → Py.int_percent n DEFAULT_OVERLAP_PERCENT = n / 10.
Proof.
  intros Hn. unfold Py.int_percent, DEFAULT_OVERLAP_PERCENT.
  rewrite Z.quot_div_nonneg by lia.
  change 100 with (10 * 10). by rewrite Z.div_mul_cancel_r.
Qed.

(** The cut points of the fallback lie inside the text, in order. *)
Lemma fallback_bounds (text : Py.str) :
  let length := Py.len text in
  let pad := Py.int_percent length DEFAULT_OVERLAP_PERCENT in
  0 ≤ pad ∧ pad ≤ length / 2 ∧ length / 2 + pad ≤ length.
Proof.
  intros length pad. subst pad length.
  rewrite int_percent_tenth by apply len_nonneg.
  pose proof (len_nonneg text) as Hl. revert Hl.
  generalize (Py.len text). intros n Hn. Z.div_mod_to_equations. lia.
Qed.

Lemma fallback_halves_take_drop (text : Py.str) :
  let mid := Py.len text / 2 in
  let pad := Py.int_percent (Py.len text) DEFAULT_OVERLAP_PERCENT in
  fallback_halves text
  = (take (Z.to_nat (mid + pad)) text, drop (Z.to_nat (mid - pad)) text).
Proof.
  intros mid pad. destruct (fallback_bounds text) as (H0 & H1 & H2).
  unfold fallback_halves. fold mid pad.
  rewrite slice_to_take, slice_from_drop by (subst mid pad; lia). done.
Qed.

(** C8.  In the fallback of [split_page_by_max_tokens] the halves
    [first = text[: mid + pad]] and [second = text[mid - pad :]] share the
    region [text[mid - pad : mid + pad]] of exactly [2 * pad] characters,
    which ends [first] and starts [second]; and [first] followed by
    [second] without its first [2 * pad] characters is [text]. *)
Theorem fallback_halves_overlap (text : Py.str) :
  let mid := Py.len text / 2 in
  let pad := Py.int_percent (Py.len text) DEFAULT_OVERLAP_PERCENT in
  let shared := Py.slice text (mid - pad) (mid + pad) in
  let '(first, second) := fallback_halves text in
  Py.len shared = 2 * pad
  ∧ Py.slice_from first (Py.len first - 2 * pad) = shared
  ∧ Py.slice_to second (2 * pad) = shared
  ∧ first ++ Py.slice_from second (2 * pad) = text.
Proof.
  intros mid pad shared. rewrite fallback_halves_take_drop. fold mid pad.
  destruct (fallback_bounds text) as (H0 & H1 & H2). fold pad mid in H0, H1, H2.
  pose proof (len_nonneg text) as Hl.
  set (first := take _ text). set (second := drop _ text).
  assert (Py.len first = mid + pad) as Hf.
  { unfold first, Py.len in *. rewrite length_take. lia. }
  assert (Py.len second = Py.len text - (mid - pad)) as Hs.
  { unfold second, Py.len in *. rewrite length_drop. lia. }
  assert (shared = take (Z.to_nat (2 * pad)) second) as Hsh.
  { unfold shared, Py.slice. rewrite !clamp_id by lia.
    unfold second. f_equal. lia. }
  split_and!.
  - rewrite Hsh. unfold Py.len in *. rewrite length_take. lia.
  - rewrite slice_from_drop by lia. rewrite Hsh, Hf.
    unfold first, second. rewrite take_drop_commute. f_equal; [lia|].
    f_equal. lia.
  - rewrite slice_to_take by lia. by rewrite Hsh.
  - rewrite slice_from_drop by lia. unfold first, second.
    rewrite drop_drop.
    replace (Z.to_nat (mid - pad) + Z.to_nat (2 * pad))%nat
      with (Z.to_nat (mid + pad)) by lia.
    apply take_drop.
Qed.

(** From two characters on, both halves of the fallback are shorter than
    the text. *)
Lemma fallback_halves_shorter (text : Py.str) :
  2 ≤ Py.len text →
  Py.len (fallback_halves text).1 < Py.len text
  ∧ Py.len (fallback_halves text).2 < Py.len text.
Proof.
  intros Hl. rewrite fallback_halves_take_drop. simpl.
  pose proof (int_percent_tenth (Py.len text)) as Hp.
  rewrite Hp by lia. unfold Py.len in *.
  rewrite length_take, length_drop.
  revert Hl. generalize (length text). intros n Hn.
  Z.div_mod_to_equations. lia.
Qed.

End fallback.

(** ** Generators *)

Lemma g_seq_yielded_Forall (P : SplitPage.t → Prop) g k :
  Forall P (yielded g) → Forall P (yielded k) → Forall P (yielded (g_seq g k)).
Proof.
  intros Hg Hk. unfold g_seq. destruct (stopped g); simpl; [|done..].
  by apply Forall_app.
Qed.

Lemma g_seq_returned g k :
  stopped g = Returned → stopped k = Returned → stopped (g_seq g k) = Returned.
Proof. intros Hg Hk. unfold g_seq. by rewrite Hg. Qed.

Lemma g_seq_not_returned g k :
  stopped k ≠ Returned → stopped (g_seq g k) ≠ Returned.
Proof. intros Hk. unfold g_seq. destruct (stopped g) eqn:E; simpl; congruence. Qed.

(** ** The token-budget recursion *)

Section token_recursion.
Import SentenceTextSplitter.
Context `{Encoder}.
Variable self : t.

(** The search for a sentence ending near the middle reads the text inside
    its bounds only, and a position it finds is strictly inside the text. *)
Lemma search_boundary_inside (text : Py.str) (offsets : list Z) :
  Forall (λ o, 0 ≤ o < Py.len text / 3) offsets →
  ∃ split_pos,
    search_boundary self text (Py.len text) (Py.len text / 2) offsets
    = Py.Ok split_pos
    ∧ (split_pos = -1 ∨ 1 ≤ split_pos ≤ Py.len text - 1).
Proof.
  pose proof (len_nonneg text) as Hl.
  induction 1 as [|o offsets Ho _ IH]; simpl; [eauto|].
  assert (0 ≤ Py.len text / 2 - o < Py.len text
          ∧ Py.len text / 2 - o + 1 ≤ Py.len text - 1
          ∧ 1 ≤ Py.len text / 2 + o + 1 ≤ Py.len text - 1) as (Hleft & Hl1 & Hr1).
  { revert Hl Ho. generalize (Py.len text). intros n Hn Ho.
    Z.div_mod_to_equations. lia. }
  assert (∃ l, (if 0 <? Py.len text / 2 - o
                then char_in text (Py.len text / 2 - o) (sentence_endings self)
                else Py.Ok false) = Py.Ok l) as [l ->].
  { destruct (0 <? _); [|eauto]. unfold char_in.
    destruct (getitem_in_range text _ Hleft) as [c ->]. simpl. eauto. }
  simpl. destruct l; [eexists; split; [done|right; lia]|].
  assert (∃ r, (if Py.len text / 2 + o <? Py.len text
                then char_in text (Py.len text / 2 + o) (sentence_endings self)
                else Py.Ok false) = Py.Ok r) as [r ->].
  { destruct (Z.ltb_spec (Py.len text / 2 + o) (Py.len text)); [|eauto].
    unfold char_in.
    destruct (getitem_in_range text (Py.len text / 2 + o)) as [c ->]; [lia|].
    simpl. eauto. }
  simpl. destruct r; [eexists; split; [done|right; lia]|]. done.
Qed.

Lemma range_boundary (n : Z) : Forall (λ o, 0 ≤ o < n) (seqZ 0 n).
Proof.
  apply Forall_forall. intros o Ho. apply elem_of_seqZ in Ho. lia.
Qed.

(** Both texts of the recursive calls are cut from the caller's text. *)
Lemma halves_substring (text : Py.str) (split_pos : Z) :
  substring (halves text split_pos).1 text
  ∧ substring (halves text split_pos).2 text.
Proof.
  unfold halves, fallback_halves.
  destruct (split_pos <? 0); simpl; split; apply slice_substring.
Qed.

(** From two characters on, both recursive calls are on shorter texts. *)
Lemma halves_shorter (text : Py.str) (split_pos : Z) :
  2 ≤ Py.len text →
  split_pos = -1 ∨ 1 ≤ split_pos ≤ Py.len text - 1 →
  Py.len (halves text split_pos).1 < Py.len text
  ∧ Py.len (halves text split_pos).2 < Py.len text.
Proof.
  intros Hl Hsp. unfold halves.
  destruct (Z.ltb_spec split_pos 0); [by apply fallback_halves_shorter|].
  simpl. rewrite len_slice_to, len_slice_from by lia. lia.
Qed.

(** On a text of two characters or more, the search raises nothing and both
    recursive calls are on strictly shorter texts. *)
Lemma recursive_calls_on_shorter_texts (text : Py.str) :
  2 ≤ Py.len text →
  ∃ split_pos,
    search_boundary self text (Py.len text) (Py.len text / 2)
      (seqZ 0 (Py.len text / 3)) = Py.Ok split_pos
    ∧ Py.len (halves text split_pos).1 < Py.len text
    ∧ Py.len (halves text split_pos).2 < Py.len text.
Proof.
  intros Hl.
  destruct (search_boundary_inside text (seqZ 0 (Py.len text / 3)))
    as (split_pos & Hs & Hsp); [apply range_boundary|].
  exists split_pos. split; [done|]. by apply halves_shorter.
Qed.

(** C6.  Every chunk yielded by [split_page_by_max_tokens], for every page
    number and text, has at most [max_tokens_per_section] tokens as counted
    by the encoder. *)
Theorem split_page_by_max_tokens_budget (fuel : nat) (page_num : Z)
        (text : Py.str) :
  Forall (λ c, Py.len (encode (SplitPage.text c)) ≤ max_tokens_per_section self)
         (yielded (split_page_by_max_tokens self fuel page_num text)).
Proof.
  revert text. induction fuel as [|fuel IH]; intros text; simpl; [constructor|].
  destruct (Z.leb_spec (Py.len (encode text)) (max_tokens_per_section self)).
  - by repeat constructor.
  - destruct (search_boundary _ _ _ _ _) as [split_pos|e]; simpl; [|constructor].
    destruct (halves text split_pos) as [first second].
    by apply g_seq_yielded_Forall.
Qed.

(** C10.  Every chunk yielded by [split_page_by_max_tokens page_num text]
    carries the [page_num] passed in, and its text is a contiguous
    substring of [text]. *)
Theorem split_page_by_max_tokens_provenance (fuel : nat) (page_num : Z)
        (text : Py.str) :
  Forall (λ c, SplitPage.page_num c = page_num
               ∧ substring (SplitPage.text c) text)
         (yielded (split_page_by_max_tokens self fuel page_num text)).
Proof.
  revert text. induction fuel as [|fuel IH]; intros text; simpl; [constructor|].
  destruct (Py.len (encode text) <=? max_tokens_per_section self).
  - repeat constructor. apply substring_refl.
  - destruct (search_boundary _ _ _ _ _) as [split_pos|e]; simpl; [|constructor].
    destruct (halves_substring text split_pos) as [H1 H2].
    destruct (halves text split_pos) as [first second]. simpl in H1, H2.
    apply g_seq_yielded_Forall.
    + eapply Forall_impl; [apply IH|]. intros c [? ?]. split; [done|].
      by eapply substring_trans.
    + eapply Forall_impl; [apply IH|]. intros c [? ?]. split; [done|].
      by eapply substring_trans.
Qed.

(** Every chunk the recursion yields has the default, empty [meta]. *)
Lemma split_page_by_max_tokens_meta (fuel : nat) (page_num : Z)
      (text : Py.str) :
  Forall (λ c, SplitPage.meta c = ∅)
         (yielded (split_page_by_max_tokens self fuel page_num text)).
Proof.
  revert text. induction fuel as [|fuel IH]; intros text; simpl; [constructor|].
  destruct (Py.len (encode text) <=? max_tokens_per_section self).
  - by repeat constructor.
  - destruct (search_boundary _ _ _ _ _) as [split_pos|e]; simpl; [|constructor].
    destruct (halves text split_pos) as [first second].
    by apply g_seq_yielded_Forall.
Qed.

(** When every text of at most one character is within the token budget,
    the recursion returns, at a depth of at most the length of the text. *)
Lemma split_page_by_max_tokens_returns (fuel : nat) (page_num : Z)
      (text : Py.str) :
  (∀ t, Py.len t ≤ 1 → Py.len (encode t) ≤ max_tokens_per_section self) →
  (length text < fuel)%nat →
  stopped (split_page_by_max_tokens self fuel page_num text) = Returned.
Proof.
  intros Hunit. revert text.
  induction fuel as [|fuel IH]; intros text Hfuel; [lia|]. simpl.
  destruct (Z.leb_spec (Py.len (encode text)) (max_tokens_per_section self));
    [done|].
  assert (2 ≤ Py.len text) as Hl.
  { destruct (Z.le_gt_cases (Py.len text) 1) as [Hs|]; [|lia].
    apply Hunit in Hs. lia. }
  destruct (search_boundary_inside text (seqZ 0 (Py.len text / 3)))
    as (split_pos & -> & Hsp); [apply range_boundary|]. simpl.
  destruct (halves_shorter text split_pos Hl Hsp) as [H1 H2].
  destruct (halves text split_pos) as [first second]. simpl in H1, H2.
  unfold Py.len in *. apply g_seq_returned; apply IH; lia.
Qed.

End token_recursion.

(** ** The sliding window of [split_pages] *)

Section sliding_window.
Import SentenceTextSplitter.
Context `{Encoder}.
Variable self : t.
Variable all_text : Py.str.

Local Abbreviation total_len := (Py.len all_text).

(** The scan moves the cursor forward, never past the end of the buffer,
    and a word break it records lies before the cursor. *)
Lemma scan_bounds (end_ : Z) (fuel : nat) (cursor lwb cursor' lwb' : Z) :
  cursor ≤ total_len →
  scan self all_text total_len end_ fuel cursor lwb = Py.Ok (cursor', lwb') →
  cursor ≤ cursor' ≤ total_len ∧ (lwb' = lwb ∨ cursor ≤ lwb' < cursor').
Proof.
  revert cursor lwb. induction fuel as [|fuel IH]; intros cursor lwb Hc; simpl.
  - intros [= <- <-]. lia.
  - destruct (Z.ltb_spec cursor total_len); simpl; [|intros [= <- <-]; lia].
    destruct (cursor - end_ <? _); simpl; [|intros [= <- <-]; lia].
    destruct (Py.getitem all_text cursor) as [c|e]; simpl; [|done].
    destruct (Py.contains (sentence_endings self) c); [intros [= <- <-]; lia|].
    intros Hscan. apply IH in Hscan; [|lia].
    destruct (Py.contains (word_breaks self) c); lia.
Qed.

(** With one unit of fuel for each character left in the buffer, the scan
    stops only where the condition of the [while] is false. *)
Lemma scan_exit (end_ : Z) (fuel : nat) (cursor lwb cursor' lwb' : Z) :
  (Z.to_nat (total_len - cursor) ≤ fuel)%nat →
  scan self all_text total_len end_ fuel cursor lwb = Py.Ok (cursor', lwb') →
  total_len ≤ cursor'
  ∨ sentence_search_limit self ≤ cursor' - end_
  ∨ ∃ c, Py.getitem all_text cursor' = Py.Ok c
         ∧ Py.contains (sentence_endings self) c = true.
Proof.
  revert cursor lwb. induction fuel as [|fuel IH]; intros cursor lwb Hf; simpl.
  - intros [= <- <-]. lia.
  - destruct (Z.ltb_spec cursor total_len); simpl; [|intros [= <- <-]; lia].
    destruct (Z.ltb_spec (cursor - end_) (sentence_search_limit self)); simpl;
      [|intros [= <- <-]; lia].
    destruct (Py.getitem all_text cursor) as [c|e] eqn:Hget; simpl; [|done].
    destruct (Py.contains (sentence_endings self) c) eqn:Hend.
    + intros [= <- <-]. eauto.
    + apply IH. lia.
Qed.

(** The window-extension step stops where the condition of the [while] is
    false: at the end of the buffer, at the search limit, or on a sentence
    ending. *)
Lemma extend_exit (end_ cursor lwb : Z) :
  extend self all_text total_len end_ = Py.Ok (cursor, lwb) →
  total_len ≤ cursor
  ∨ sentence_search_limit self ≤ cursor - end_
  ∨ ∃ c, Py.getitem all_text cursor = Py.Ok c
         ∧ Py.contains (sentence_endings self) c = true.
Proof. apply scan_exit. lia. Qed.

(** The cut of a window is at most the length of the buffer. *)
Lemma cut_bound (end_ cursor lwb : Z) :
  end_ ≤ total_len →
  extend self all_text total_len end_ = Py.Ok (cursor, lwb) →
  cut total_len cursor lwb ≤ total_len.
Proof.
  intros He Hscan. apply scan_bounds in Hscan; [|done]. unfold cut.
  destruct (cursor <? total_len); simpl; [|lia].
  destruct (Z.ltb_spec 0 lwb); lia.
Qed.

(** With a positive [section_overlap], every iteration of the loop leaves
    [start] below the length of the buffer, so the condition of the loop
    never becomes false: the loop does not return, whatever the bound on
    its iterations. *)
Lemma window_loop_never_returns (pages : list Page.t) (rfuel fuel : nat)
      (start : Z) :
  0 < section_overlap self → start < total_len →
  stopped (window_loop self pages all_text total_len rfuel fuel start)
  ≠ Returned.
Proof.
  intros Hov. revert start.
  induction fuel as [|fuel IH]; intros start Hstart; simpl; [done|].
  destruct (Z.ltb_spec start total_len); [|lia].
  destruct (extend _ _ _ _) as [[cursor lwb]|e] eqn:Hext; simpl; [|done].
  apply cut_bound in Hext; [|lia].
  destruct (_find_page pages start) as [page_num|e]; simpl; [|done].
  apply g_seq_not_returned, IH. lia.
Qed.

End sliding_window.

(** On a buffer longer than [max_section_length], [split_pages] of a splitter
    with a positive [section_overlap] does not return. *)
Lemma split_pages_never_returns `{Encoder} (self : SentenceTextSplitter.t)
      (fuel : nat) (pages : list Page.t) :
  0 < SentenceTextSplitter.section_overlap self →
  SentenceTextSplitter.max_section_length self < Py.len (join_text pages) →
  Exists (λ c, Py.isspace c = false) (join_text pages) →
  stopped (SentenceTextSplitter.split_pages self fuel pages) ≠ Returned.
Proof.
  intros Hov Hlen Hns. unfold SentenceTextSplitter.split_pages.
  destruct (negb _) eqn:Hblank.
  - apply blank_guard in Hblank. apply Exists_exists in Hns as (c & Hc & Hsp).
    rewrite Forall_forall in Hblank. apply Hblank in Hc. congruence.
  - destruct (Z.leb_spec (Py.len (join_text pages))
                (SentenceTextSplitter.max_section_length self)); [lia|].
    apply window_loop_never_returns; [done|].
    destruct (join_text pages); [by inversion Hns|]. unfold Py.len. simpl. lia.
Qed.

(** ** Absence of exceptions *)

Section no_raise.
Import SentenceTextSplitter.
Context `{Encoder}.
Variable self : t.

(** The recursion reads the text inside its bounds only: it returns or is
    still running, and never raises. *)
Lemma split_page_by_max_tokens_no_raise (fuel : nat) (page_num : Z)
      (text : Py.str) :
  stopped (split_page_by_max_tokens self fuel page_num text) = Returned
  ∨ stopped (split_page_by_max_tokens self fuel page_num text) = OutOfFuel.
Proof.
  revert text. induction fuel as [|fuel IH]; intros text; simpl; [by right|].
  destruct (Py.len (encode text) <=? max_tokens_per_section self); [by left|].
  destruct (search_boundary_inside self text (seqZ 0 (Py.len text / 3)))
    as (split_pos & -> & _); [apply range_boundary|]. simpl.
  destruct (halves text split_pos) as [first second].
  unfold g_seq. destruct (IH first) as [E|E]; rewrite E; simpl; [|by right].
  apply IH.
Qed.

Lemma scan_no_raise (all_text : Py.str) (end_ : Z) (fuel : nat)
      (cursor lwb : Z) :
  0 ≤ cursor →
  ∃ r, scan self all_text (Py.len all_text) end_ fuel cursor lwb = Py.Ok r.
Proof.
  revert cursor lwb. induction fuel as [|fuel IH]; intros cursor lwb Hc; simpl;
    [eauto|].
  destruct (Z.ltb_spec cursor (Py.len all_text)); simpl; [|eauto].
  destruct (cursor - end_ <? _); simpl; [|eauto].
  destruct (getitem_in_range all_text cursor) as [c ->]; [lia|]. simpl.
  destruct (Py.contains (sentence_endings self) c); [eauto|].
  apply IH. lia.
Qed.

(** With [0 < section_overlap < max_section_length] and a buffer longer
    than [max_section_length], the loop is still running after any number
    of iterations: [start] stops at [total_len - section_overlap]. *)
Lemma window_loop_out_of_fuel (pages : list Page.t) (all_text : Py.str)
      (rfuel fuel : nat) (start : Z) :
  0 < section_overlap self < max_section_length self →
  max_section_length self < Py.len all_text →
  pages ≠ [] →
  0 ≤ start < Py.len all_text →
  stopped (window_loop self pages all_text (Py.len all_text) rfuel fuel start)
  = OutOfFuel.
Proof.
  intros Hov Hlen Hne. revert start.
  induction fuel as [|fuel IH]; intros start Hstart; simpl; [done|].
  destruct (Z.ltb_spec start (Py.len all_text)); [|lia].
  set (end_ := Z.min _ _).
  destruct (scan_no_raise all_text end_
              (Z.to_nat (Py.len all_text - end_)) end_ (-1))
    as [[cursor lwb] Hext]; [lia|].
  unfold extend. rewrite Hext. simpl.
  pose proof (cut_bound self all_text end_ cursor lwb) as Hcut.
  unfold extend in Hcut. specialize (Hcut ltac:(lia) Hext).
  apply scan_bounds in Hext; [|lia].
  assert (end_ ≤ cut (Py.len all_text) cursor lwb) as Hcut'.
  { unfold cut. destruct (cursor <? _); simpl; [|lia].
    destruct (Z.ltb_spec 0 lwb); lia. }
  destruct (find_page_no_raise pages start Hne) as [page_num ->]. simpl.
  unfold g_seq.
  destruct (split_page_by_max_tokens_no_raise rfuel page_num
              (Py.slice all_text start (cut (Py.len all_text) cursor lwb)))
    as [E|E]; rewrite E; [simpl|done].
  apply IH. lia.
Qed.

End no_raise.

(** On a buffer longer than [max_section_length], [split_pages] of a splitter
    with [0 < section_overlap < max_section_length] is still running after
    any number of iterations. *)
Lemma sentence_split_pages_out_of_fuel `{Encoder}
      (self : SentenceTextSplitter.t) (fuel : nat) (pages : list Page.t) :
  0 < SentenceTextSplitter.section_overlap self
    < SentenceTextSplitter.max_section_length self →
  SentenceTextSplitter.max_section_length self < Py.len (join_text pages) →
  Exists (λ c, Py.isspace c = false) (join_text pages) →
  stopped (SentenceTextSplitter.split_pages self fuel pages) = OutOfFuel.
Proof.
  intros Hov Hlen Hns. unfold SentenceTextSplitter.split_pages.
  destruct (negb _) eqn:Hblank.
  - apply blank_guard in Hblank. apply Exists_exists in Hns as (c & Hc & Hsp).
    rewrite Forall_forall in Hblank. apply Hblank in Hc. congruence.
  - destruct (Z.leb_spec (Py.len (join_text pages))
                (SentenceTextSplitter.max_section_length self)); [lia|].
    apply window_loop_out_of_fuel; [done | done | | lia].
    intros ->. inversion Hns.
Qed.

Lemma total_chars_len (pages : list Page.t) :
  Splitter.total_chars pages = Py.len (join_text pages).
Proof.
  induction pages as [|p pages IH]; [done|].
  change (Splitter.total_chars (p :: pages))
    with (Py.len (Page.text p) + Splitter.total_chars pages).
  change (join_text (p :: pages)) with (Page.text p ++ join_text pages).
  by rewrite len_app, IH.
Qed.

(** The driver of splitter.py gives every document of more than
    [MAX_OBJECT_LEN] characters to the sentence splitter, whose loop over it
    is still running after any number of iterations. *)
Lemma chosen_split_pages_out_of_fuel `{Encoder} (fuel : nat)
      (pages : list Page.t) :
  Splitter.MAX_OBJECT_LEN < Splitter.total_chars pages →
  Exists (λ c, Py.isspace c = false) (join_text pages) →
  stopped (Splitter.chosen_split_pages fuel pages) = OutOfFuel.
Proof.
  intros Hlen Hns. unfold Splitter.chosen_split_pages, Splitter.choose_splitter.
  destruct (Z.ltb_spec Splitter.MAX_OBJECT_LEN (Splitter.total_chars pages));
    [|lia].
  rewrite total_chars_len in Hlen.
  apply sentence_split_pages_out_of_fuel; [done| |done].
  change (SentenceTextSplitter.max_section_length Splitter.sentence_splitter)
    with 1000.
  unfold Splitter.MAX_OBJECT_LEN in Hlen. lia.
Qed.

(** ** Whitespace-only input *)

Lemma blank_or_not (s : Py.str) :
  Forall (λ c, Py.isspace c = true) s ∨ Exists (λ c, Py.isspace c = false) s.
Proof.
  induction s as [|c s [IH|IH]].
  - left. constructor.
  - destruct (Py.isspace c) eqn:E.
    + left. by constructor.
    + right. by constructor.
  - right. by constructor.
Qed.

Lemma sentence_split_pages_blank `{Encoder} (self : SentenceTextSplitter.t)
      (fuel : nat) (pages : list Page.t) :
  Forall (λ c, Py.isspace c = true) (join_text pages) →
  SentenceTextSplitter.split_pages self fuel pages = g_return.
Proof.
  intros Hb%blank_guard. unfold SentenceTextSplitter.split_pages.
  by rewrite Hb.
Qed.

Lemma simple_split_pages_blank (self : SimpleTextSplitter.t)
      (pages : list Page.t) :
  Forall (λ c, Py.isspace c = true) (join_text pages) →
  SimpleTextSplitter.split_pages self pages = g_return.
Proof.
  intros Hb%blank_guard. unfold SimpleTextSplitter.split_pages.
  by rewrite Hb.
Qed.

(** C9.  When the concatenated text of the pages is empty or consists only
    of whitespace, [split_pages] of the sentence splitter and of the simple
    splitter both return without yielding a chunk. *)
Theorem blank_input_yields_nothing `{Encoder}
        (sentence : SentenceTextSplitter.t) (simple : SimpleTextSplitter.t)
        (fuel : nat) (pages : list Page.t) :
  Forall (λ c, Py.isspace c = true) (join_text pages) →
  split_pages sentence fuel pages = g_return
  ∧ split_pages simple fuel pages = g_return.
Proof.
  intros Hb. split.
  - by apply sentence_split_pages_blank.
  - by apply simple_split_pages_blank.
Qed.

Lemma blank_input_yields_nothing_witness :
  Forall (λ c, Py.isspace c = true) (join_text Examples.blank_pages)
  ∧ split_pages (TextSplitter := @sentence_text_splitter Examples.char_encoder)
      SentenceTextSplitter.default 3 Examples.blank_pages = g_return
  ∧ split_pages SimpleTextSplitter.default 3 Examples.blank_pages = g_return.
Proof.
  assert (Forall (λ c, Py.isspace c = true) (join_text Examples.blank_pages))
    as Hb by (repeat constructor).
  split; [exact Hb|].
  exact (@blank_input_yields_nothing Examples.char_encoder
           SentenceTextSplitter.default SimpleTextSplitter.default 3
           Examples.blank_pages Hb).
Defined.

(** C4, as the code has it.  A chunk is emitted, by either strategy, only
    when the concatenated text of the pages contains a character that is not
    whitespace; and a chunk that is emitted unsplit is the whole buffer, so
    it contains such a character itself: a chunk of the simple strategy on a
    buffer of at most [max_object_length] characters, and a chunk of the
    sentence strategy on a buffer of at most [max_section_length] characters
    and at most [max_tokens_per_section] tokens. *)
Theorem chunks_only_from_nonblank_buffer `{Encoder}
        (sentence : SentenceTextSplitter.t) (simple : SimpleTextSplitter.t)
        (fuel : nat) (pages : list Page.t) (c : SplitPage.t) :
  c ∈ yielded (split_pages sentence fuel pages)
  ∨ c ∈ yielded (split_pages simple fuel pages) →
  Exists (λ ch, Py.isspace ch = false) (join_text pages)
  ∧ (c ∈ yielded (split_pages simple fuel pages) →
     Py.len (join_text pages) ≤ SimpleTextSplitter.max_object_length simple →
     SplitPage.text c = join_text pages
     ∧ Exists (λ ch, Py.isspace ch = false) (SplitPage.text c))
  ∧ (c ∈ yielded (split_pages sentence fuel pages) →
     Py.len (join_text pages)
     ≤ SentenceTextSplitter.max_section_length sentence →
     Py.len (encode (join_text pages))
     ≤ SentenceTextSplitter.max_tokens_per_section sentence →
     SplitPage.text c = join_text pages
     ∧ Exists (λ ch, Py.isspace ch = false) (SplitPage.text c)).
Proof.
  intros Hc.
  assert (Exists (λ ch, Py.isspace ch = false) (join_text pages)) as Hns.
  { destruct (blank_or_not (join_text pages)) as [Hb|]; [|done].
    unfold split_pages, sentence_text_splitter, simple_text_splitter in Hc.
    rewrite sentence_split_pages_blank, simple_split_pages_blank in Hc by done.
    simpl in Hc. destruct Hc as [Hc|Hc]; inversion Hc. }
  split; [done|]. split.
  - intros Hs Hlen.
    unfold split_pages, simple_text_splitter, SimpleTextSplitter.split_pages
      in Hs.
    destruct (negb _); [inversion Hs|].
    destruct (Z.leb_spec (Py.len (join_text pages))
                (SimpleTextSplitter.max_object_length simple)); [|lia].
    simpl in Hs. apply list_elem_of_singleton in Hs. by subst c.
  - intros Hs Hlen Htok.
    unfold split_pages, sentence_text_splitter,
      SentenceTextSplitter.split_pages in Hs.
    destruct (negb _); [inversion Hs|].
    destruct (Z.leb_spec (Py.len (join_text pages))
                (SentenceTextSplitter.max_section_length sentence)); [|lia].
    destruct (SentenceTextSplitter._find_page pages 0) as [page_num|e];
      simpl in Hs; [|inversion Hs].
    destruct fuel as [|fuel]; simpl in Hs; [inversion Hs|].
    destruct (Z.leb_spec (Py.len (encode (join_text pages)))
                (SentenceTextSplitter.max_tokens_per_section sentence));
      [|lia].
    simpl in Hs. apply list_elem_of_singleton in Hs. by subst c.
Qed.

Lemma chunks_only_from_nonblank_buffer_witness :
  let pages := Examples.one_page "Hello world." ∅ in
  let c := SplitPage.make 0 (Py.lit "Hello world.") in
  Exists (λ ch, Py.isspace ch = false) (join_text pages)
  ∧ Exists (λ ch, Py.isspace ch = false) (SplitPage.text c)
  ∧ SplitPage.text c = join_text pages.
Proof.
  intros pages c.
  assert (c ∈ yielded (split_pages SimpleTextSplitter.default 1 pages)) as Hc.
  { apply list_elem_of_singleton. reflexivity. }
  assert (c ∈ yielded (split_pages
                         (TextSplitter :=
                            @sentence_text_splitter Examples.char_encoder)
                         SentenceTextSplitter.default 1 pages)) as Hs.
  { apply list_elem_of_singleton. reflexivity. }
  destruct (@chunks_only_from_nonblank_buffer Examples.char_encoder
              SentenceTextSplitter.default SimpleTextSplitter.default 1
              pages c (or_intror Hc)) as (H1 & H2 & H3).
  split; [exact H1|]. split.
  - apply H2; [exact Hc|]. vm_compute. discriminate.
  - apply H3; [exact Hs| |]; vm_compute; discriminate.
Defined.

(** C4 as it is stated fails: both strategies emit a chunk of whitespace cut
    from a buffer that is not all whitespace. *)
Lemma whitespace_chunk_counterexample :
  SplitPage.make 1 (Py.lit "   ")
    ∈ yielded (split_pages (SimpleTextSplitter.mk 3) 1
                 (Examples.one_page "a     " ∅))
  ∧ SplitPage.make 0 (Py.lit "  ")
      ∈ yielded (split_pages
                   (TextSplitter := @sentence_text_splitter Examples.char_encoder)
                   (SentenceTextSplitter.init 2 1000 10 100) 3
                   (Examples.one_page "x.  " ∅))
  ∧ Forall (λ ch, Py.isspace ch = true) (Py.lit "   ")
  ∧ Forall (λ ch, Py.isspace ch = true) (Py.lit "  ").
Proof.
  split_and!.
  - apply list_elem_of_In. vm_compute. auto.
  - apply list_elem_of_In. vm_compute. auto.
  - repeat constructor.
  - repeat constructor.
Qed.

(** ** The metadata of a chunk *)

Lemma window_loop_meta `{Encoder} (self : SentenceTextSplitter.t)
      (pages : list Page.t) (all_text : Py.str) (total_len : Z)
      (rfuel fuel : nat) (start : Z) :
  Forall (λ c, SplitPage.meta c = ∅)
         (yielded (SentenceTextSplitter.window_loop self pages all_text
                     total_len rfuel fuel start)).
Proof.
  revert start. induction fuel as [|fuel IH]; intros start; simpl; [constructor|].
  destruct (start <? total_len); [|constructor].
  destruct (SentenceTextSplitter.extend _ _ _ _) as [[cursor lwb]|e]; simpl;
    [|constructor].
  destruct (SentenceTextSplitter._find_page pages start) as [page_num|e]; simpl;
    [|constructor].
  apply g_seq_yielded_Forall; [apply split_page_by_max_tokens_meta | apply IH].
Qed.

(** No chunk of either strategy carries metadata: [meta] is always the empty
    dict of the dataclass default. *)
Lemma split_pages_meta_empty `{Encoder} (sentence : SentenceTextSplitter.t)
      (simple : SimpleTextSplitter.t) (fuel : nat) (pages : list Page.t) :
  Forall (λ c, SplitPage.meta c = ∅) (yielded (split_pages sentence fuel pages))
  ∧ Forall (λ c, SplitPage.meta c = ∅) (yielded (split_pages simple fuel pages)).
Proof.
  split.
  - unfold split_pages, sentence_text_splitter, SentenceTextSplitter.split_pages.
    destruct (negb _); [constructor|].
    destruct (_ <=? _); [|apply window_loop_meta].
    destruct (SentenceTextSplitter._find_page pages 0); simpl; [|constructor].
    apply split_page_by_max_tokens_meta.
  - unfold split_pages, simple_text_splitter, SimpleTextSplitter.split_pages.
    destruct (negb _); [constructor|].
    destruct (_ <=? _); [by repeat constructor|].
    destruct (Py.range _ _ _) as [idxs|e]; simpl; [|constructor].
    apply Forall_fmap, Forall_forall. done.
Qed.

(** C3, on a page that has metadata.  The page carries [url] and [title];
    the chunk that each strategy emits for it is attributed to page 0 and
    carries the empty [meta], not the page's.  The driver reads the metadata
    of the slice from the page at index [page_num], not from the chunk. *)
Theorem split_page_meta_not_inherited :
  Page.meta <$> Examples.page_with_meta
  = [ {[ "url" := Py.VStr "https://example.org/a"; "title" := Py.VStr "a" ]} ]
  ∧ yielded (split_pages
               (TextSplitter := @sentence_text_splitter Examples.char_encoder)
               SentenceTextSplitter.default 1 Examples.page_with_meta)
    = [SplitPage.mk 0 (Py.lit "Hello world.") ∅]
  ∧ yielded (split_pages SimpleTextSplitter.default 1 Examples.page_with_meta)
    = [SplitPage.mk 0 (Py.lit "Hello world.") ∅]
  ∧ Splitter.slice_meta Examples.page_with_meta
      (SplitPage.mk 0 (Py.lit "Hello world.") ∅)
    = Py.Ok {[ "url" := Py.VStr "https://example.org/a";
               "title" := Py.VStr "a" ]}.
Proof. split_and!; reflexivity. Qed.

(** ** The cut of a window *)

(** C2, on the buffer [aaaa bb. ccc] with windows of 4 characters.  The scan
    from [end = 4] stops at the full stop at position 7, three characters
    into a search limit of 100, having recorded the space at position 4; the
    window is then cut at 5, one past the word break, not at 7 where the
    cursor stopped, and the first chunk emitted is [aaaa ] with its space. *)
Theorem cut_prefers_word_break_over_sentence_ending :
  let self := SentenceTextSplitter.init 500 4 0 100 in
  let all_text := Py.lit "aaaa bb. ccc" in
  SentenceTextSplitter.extend self all_text 12 4 = Py.Ok (7, 4)
  ∧ SentenceTextSplitter.char_in all_text 7
      (SentenceTextSplitter.sentence_endings self) = Py.Ok true
  ∧ 7 - 4 < SentenceTextSplitter.sentence_search_limit self
  ∧ SentenceTextSplitter.cut 12 7 4 = 5
  ∧ SplitPage.text <$>
      yielded (split_pages
                 (TextSplitter := @sentence_text_splitter Examples.char_encoder)
                 self 3 (Examples.one_page "aaaa bb. ccc" ∅))
    = [Py.lit "aaaa "; Py.lit "bb. ccc"].
Proof. split_and!; [reflexivity | reflexivity | done | reflexivity | reflexivity]. Qed.

(** ** Termination *)

(** C5, on a text of one character over the budget.  With a budget of zero
    tokens the text [a] has one token too many; no sentence ending is found,
    and the fallback gives [first = ""] and [second = "a"]: the second
    recursive call is on the caller's own text, and the recursion is still
    running at every depth. *)
Theorem fallback_on_one_character_does_not_shrink (fuel : nat) :
  let self := SentenceTextSplitter.init 0 DEFAULT_SECTION_LENGTH
                DEFAULT_OVERLAP_PERCENT 100 in
  Py.len (encode (Encoder := Examples.char_encoder) (Py.lit "a")) = 1
  ∧ SentenceTextSplitter.search_boundary self (Py.lit "a") 1 0 (seqZ 0 0)
    = Py.Ok (-1)
  ∧ SentenceTextSplitter.halves (Py.lit "a") (-1) = ([], Py.lit "a")
  ∧ stopped (SentenceTextSplitter.split_page_by_max_tokens
               (H := Examples.char_encoder) self fuel 0 (Py.lit "a"))
    = OutOfFuel.
Proof.
  intros self. split_and!; [reflexivity..|].
  induction fuel as [|fuel IH]; [reflexivity|].
  change (stopped
            (g_seq (SentenceTextSplitter.split_page_by_max_tokens
                      (H := Examples.char_encoder) self fuel 0 [])
                   (SentenceTextSplitter.split_page_by_max_tokens
                      (H := Examples.char_encoder) self fuel 0 (Py.lit "a")))
          = OutOfFuel).
  unfold g_seq. destruct fuel as [|fuel]; [reflexivity|].
  change (stopped (SentenceTextSplitter.split_page_by_max_tokens
                     (H := Examples.char_encoder) self (S fuel) 0 []))
    with Returned.
  exact IH.
Qed.

(** C1, on the default splitter.  For the page of 1001 letters, one more than
    [max_section_length = 1000], with [section_overlap = 100], [split_pages]
    is still running after any number of iterations and at any recursion
    depth, whatever the encoder: once a window ends at the end of the buffer,
    [start] is set to [total_len - section_overlap] again and again. *)
Theorem split_pages_default_does_not_terminate `{Encoder} (fuel : nat) :
  stopped (split_pages SentenceTextSplitter.default fuel Examples.long_page)
  = OutOfFuel.
Proof.
  apply sentence_split_pages_out_of_fuel.
  - done.
  - done.
  - by apply Exists_cons_hd.
Qed.

(** Without overlap the loop does return: with [section_overlap = 0], a
    positive [max_section_length] and a budget that every text of at most one
    character fits, [start] grows in every iteration and the loop returns
    after at most [total_len - start] iterations. *)
Lemma window_loop_returns_without_overlap `{Encoder}
      (self : SentenceTextSplitter.t) (pages : list Page.t)
      (all_text : Py.str) (rfuel fuel : nat) (start : Z) :
  SentenceTextSplitter.section_overlap self = 0 →
  0 < SentenceTextSplitter.max_section_length self →
  (∀ t, Py.len t ≤ 1 →
        Py.len (encode t) ≤ SentenceTextSplitter.max_tokens_per_section self) →
  pages ≠ [] → 0 ≤ start →
  (length all_text < rfuel)%nat →
  (Z.to_nat (Py.len all_text - start) < fuel)%nat →
  stopped (SentenceTextSplitter.window_loop self pages all_text
             (Py.len all_text) rfuel fuel start) = Returned.
Proof.
  intros Hov Hmax Hunit Hne Hstart Hrfuel. revert start Hstart.
  induction fuel as [|fuel IH]; intros start Hstart Hfuel; [lia|]. simpl.
  destruct (Z.ltb_spec start (Py.len all_text)); [|done].
  set (end_ := Z.min _ _).
  destruct (scan_no_raise self all_text end_
              (Z.to_nat (Py.len all_text - end_)) end_ (-1))
    as [[cursor lwb] Hext]; [lia|].
  unfold SentenceTextSplitter.extend. rewrite Hext. simpl.
  pose proof (cut_bound self all_text end_ cursor lwb) as Hcut.
  unfold SentenceTextSplitter.extend in Hcut. specialize (Hcut ltac:(lia) Hext).
  apply scan_bounds in Hext; [|lia].
  assert (end_ ≤ SentenceTextSplitter.cut (Py.len all_text) cursor lwb) as Hcut'.
  { unfold SentenceTextSplitter.cut. destruct (cursor <? _); simpl; [|lia].
    destruct (Z.ltb_spec 0 lwb); lia. }
  destruct (find_page_no_raise pages start Hne) as [page_num ->]. simpl.
  apply g_seq_returned.
  - apply split_page_by_max_tokens_returns; [done|].
    destruct (slice_substring all_text start
                (SentenceTextSplitter.cut (Py.len all_text) cursor lwb))
      as (pre & post & Hs).
    apply (f_equal length) in Hs. rewrite !length_app in Hs. lia.
  - rewrite Hov. apply IH; lia.
Qed.

(** * More of the code *)

(** ** Slices with bounds in order *)

Lemma slice_nonneg {A} (s : list A) (lo hi : Z) :
  0 ≤ lo ≤ hi →
  Py.slice s lo hi = take (Z.to_nat (hi - lo)) (drop (Z.to_nat lo) s).
Proof.
  intros H. unfold Py.slice, Py.clamp.
  destruct (Z.ltb_spec lo 0); [lia|]. destruct (Z.ltb_spec hi 0); [lia|].
  destruct (Z.le_gt_cases (Py.len s) lo) as [Hlo|Hlo].
  - rewrite !drop_ge by (unfold Py.len in *; lia). by rewrite !take_nil.
  - rewrite (Z.min_l lo) by lia.
    destruct (Z.le_gt_cases hi (Py.len s)) as [Hhi|Hhi].
    + by rewrite (Z.min_l hi) by lia.
    + rewrite (Z.min_r hi) by lia.
      rewrite !take_ge; [done|rewrite length_drop; unfold Py.len in *; lia..].
  Qed.

(** ** The fixed-length strategy *)

Section simple_strategy.
Variable self : SimpleTextSplitter.t.
Variable pages : list Page.t.

Local Abbreviation L := (SimpleTextSplitter.max_object_length self).
Local Abbreviation buffer := (join_text pages).

(** Consecutive windows of [w] items over [s]. *)
Lemma concat_windows {A} (w m : nat) (s : list A) :
  (length s ≤ m * w)%nat →
  concat ((λ k, take w (drop (k * w) s)) <$> seq 0 m) = s.
Proof.
  revert s. induction m as [|m IH]; intros s Hm.
  - destruct s as [|a s]; [done|]. simpl in Hm. lia.
  - simpl. rewrite <- fmap_S_seq, <- list_fmap_compose.
    rewrite <- (take_drop w s) at 2. f_equal.
    rewrite <- (IH (drop w s)) by (rewrite length_drop; lia).
    f_equal. apply list_fmap_ext. intros _ k _. simpl.
    rewrite drop_drop. do 2 f_equal; lia.
Qed.

Lemma nonblank_guard (s : Py.str) :
  Exists (λ c, Py.isspace c = false) s → negb (Py.truthy (Py.strip s)) = false.
Proof.
  intros Hns. destruct (negb _) eqn:Hb; [|done].
  apply blank_guard in Hb. apply Exists_exists in Hns as (c & Hc & Hsp).
  rewrite Forall_forall in Hb. apply Hb in Hc. congruence.
Qed.

(** With a positive [max_object_length] the strategy returns, and its chunks
    are the consecutive windows of that length, numbered from 0. *)
Lemma simple_split_pages_windows :
  0 < L → Exists (λ c, Py.isspace c = false) buffer →
  SimpleTextSplitter.split_pages self pages
  = Gen ((λ k, SplitPage.make (Z.of_nat k)
                 (take (Z.to_nat L) (drop (k * Z.to_nat L) buffer)))
           <$> seq 0 (Z.to_nat ((Py.len buffer + L - 1) / L)))
        Returned.
Proof.
  intros HL Hns. unfold SimpleTextSplitter.split_pages.
  rewrite nonblank_guard by done.
  assert (1 ≤ Py.len buffer) as Hn.
  { destruct buffer; [inversion Hns|]. unfold Py.len. simpl. lia. }
  destruct (Z.leb_spec (Py.len buffer) L) as [Hle|Hgt].
  - replace ((Py.len buffer + L - 1) / L) with 1
      by (apply Z.div_unique with (Py.len buffer - 1); lia).
    simpl. unfold g_yield. do 3 f_equal.
    rewrite drop_0, take_ge; [done|]. unfold Py.len in *. lia.
  - unfold Py.range. destruct (Z.eqb_spec L 0); [lia|].
    destruct (Z.ltb_spec 0 L); [|lia]. simpl. f_equal.
    rewrite Z.sub_0_r. unfold seqZ.
    rewrite <- !list_fmap_compose. apply list_fmap_ext. intros _ k _. simpl.
    replace (0 + (Z.of_nat k + 0) * L) with (Z.of_nat k * L) by lia.
    rewrite Z.div_mul by lia. f_equal.
    rewrite slice_nonneg by lia. f_equal; [f_equal; lia|]. f_equal. lia.
Qed.

End simple_strategy.

(** X1.  With a positive [max_object_length] and a buffer that is not all
    whitespace, [SimpleTextSplitter.split_pages] returns, and its chunks, put
    end to end, are the buffer: nothing is lost and nothing is repeated. *)
Theorem simple_chunks_concat_to_buffer (self : SimpleTextSplitter.t)
        (pages : list Page.t) :
  0 < SimpleTextSplitter.max_object_length self →
  Exists (λ c, Py.isspace c = false) (join_text pages) →
  stopped (SimpleTextSplitter.split_pages self pages) = Returned
  ∧ concat (SplitPage.text <$> yielded (SimpleTextSplitter.split_pages self pages))
    = join_text pages.
Proof.
  intros HL Hns. rewrite simple_split_pages_windows by done. simpl.
  split; [done|]. rewrite <- list_fmap_compose. apply concat_windows.
  pose proof (len_nonneg (join_text pages)) as Hn. unfold Py.len in *.
  set (n := Z.of_nat (length (join_text pages))) in *.
  set (L := SimpleTextSplitter.max_object_length self) in *.
  assert (n ≤ L * ((n + L - 1) / L)).
  { pose proof (Z.mul_div_le (n + L - 1) L HL).
    pose proof (Z.mod_pos_bound (n + L - 1) L HL).
    pose proof (Z.div_mod (n + L - 1) L). lia. }
  assert (0 ≤ (n + L - 1) / L) by (apply Z.div_pos; lia).
  nia.
Qed.

Lemma simple_chunks_concat_to_buffer_witness :
  concat (SplitPage.text <$>
            yielded (SimpleTextSplitter.split_pages (SimpleTextSplitter.mk 3)
                       (Examples.one_page "abcdefgh" ∅)))
  = Py.lit "abcdefgh".
Proof.
  apply (simple_chunks_concat_to_buffer (SimpleTextSplitter.mk 3)
           (Examples.one_page "abcdefgh" ∅)).
  - simpl. lia.
  - apply Exists_cons_hd. reflexivity.
Defined.

(** X2.  Under the same conditions the strategy emits as many chunks as
    windows of [max_object_length] characters are needed to cover the buffer;
    the chunk at position [k] is the window that starts at
    [k * max_object_length], it has between one and [max_object_length]
    characters, and its [page_num] is [k], the position of the chunk and not
    a page of the input. *)
Theorem simple_chunks_are_numbered_windows (self : SimpleTextSplitter.t)
        (pages : list Page.t) :
  let L := SimpleTextSplitter.max_object_length self in
  let chunks := yielded (SimpleTextSplitter.split_pages self pages) in
  0 < L →
  Exists (λ c, Py.isspace c = false) (join_text pages) →
  Z.of_nat (length chunks) = (Py.len (join_text pages) + L - 1) / L
  ∧ ∀ (k : nat) c,
      chunks !! k = Some c →
      SplitPage.page_num c = Z.of_nat k
      ∧ SplitPage.text c
        = Py.slice (join_text pages) (Z.of_nat k * L) (Z.of_nat k * L + L)
      ∧ 1 ≤ Py.len (SplitPage.text c) ≤ L.
Proof.
  intros L chunks HL Hns. subst chunks.
  rewrite simple_split_pages_windows by done. simpl. fold L.
  pose proof (len_nonneg (join_text pages)) as Hn.
  set (n := Py.len (join_text pages)) in *.
  assert (0 ≤ (n + L - 1) / L) as Hm by (apply Z.div_pos; lia).
  split; [rewrite length_fmap, length_seq; lia|].
  intros k c Hk. rewrite list_lookup_fmap in Hk.
  destruct (seq 0 _ !! k) as [k'|] eqn:Hseq; [|done].
  apply lookup_seq in Hseq as [-> Hlt]. simpl in Hk. injection Hk as <-.
  assert (Z.of_nat k * L < n) as Hstart.
  { pose proof (Z.mul_div_le (n + L - 1) L HL). nia. }
  simpl. split; [done|split].
  - rewrite slice_nonneg by lia. f_equal; [lia|]. f_equal. lia.
  - unfold Py.len. rewrite length_take, length_drop.
    subst n. unfold Py.len in *. nia.
Qed.

Lemma simple_chunks_are_numbered_windows_witness :
  SplitPage.page_num (SplitPage.make 2 (Py.lit "gh")) = 2
  ∧ SplitPage.text (SplitPage.make 2 (Py.lit "gh"))
    = Py.slice (Py.lit "abcdefgh") 6 9
  ∧ 1 ≤ Py.len (Py.lit "gh") ≤ 3.
Proof.
  destruct (simple_chunks_are_numbered_windows (SimpleTextSplitter.mk 3)
              (Examples.one_page "abcdefgh" ∅)) as [_ H].
  - simpl. lia.
  - apply Exists_cons_hd. reflexivity.
  - apply (H 2%nat (SplitPage.make 2 (Py.lit "gh"))). reflexivity.
Defined.

(** X3.  On a buffer that is not all whitespace, a [max_object_length] of
    zero makes the strategy raise ValueError before any chunk, and a negative
    one makes it return without a chunk: the document is dropped. *)
Theorem simple_nonpositive_length (self : SimpleTextSplitter.t)
        (pages : list Page.t) :
  Exists (λ c, Py.isspace c = false) (join_text pages) →
  (SimpleTextSplitter.max_object_length self = 0 →
   SimpleTextSplitter.split_pages self pages = Gen [] (Raised Py.ValueError))
  ∧ (SimpleTextSplitter.max_object_length self < 0 →
     SimpleTextSplitter.split_pages self pages = Gen [] Returned).
Proof.
  intros Hns.
  assert (1 ≤ Py.len (join_text pages)) as Hn.
  { destruct (join_text pages); [inversion Hns|]. unfold Py.len. simpl. lia. }
  split; intros HL; unfold SimpleTextSplitter.split_pages;
    rewrite nonblank_guard by done;
    (destruct (Z.leb_spec (Py.len (join_text pages))
                 (SimpleTextSplitter.max_object_length self)); [lia|]);
    unfold Py.range.
  - by rewrite HL.
  - destruct (Z.eqb_spec (SimpleTextSplitter.max_object_length self) 0); [lia|].
    destruct (Z.ltb_spec 0 (SimpleTextSplitter.max_object_length self)); [lia|].
    rewrite seqZ_nil; [done|].
    set (L := SimpleTextSplitter.max_object_length self) in *.
    set (len := Py.len (join_text pages)) in *.
    assert ((0 - len - L - 1) / - L < 1); [|lia].
    apply Z.div_lt_upper_bound; lia.
Qed.

Lemma simple_nonpositive_length_witness :
  SimpleTextSplitter.split_pages (SimpleTextSplitter.mk 0)
    (Examples.one_page "ab" ∅) = Gen [] (Raised Py.ValueError)
  ∧ SimpleTextSplitter.split_pages (SimpleTextSplitter.mk (-2))
      (Examples.one_page "abcde" ∅) = Gen [] Returned.
Proof.
  split.
  - apply (simple_nonpositive_length (SimpleTextSplitter.mk 0)
             (Examples.one_page "ab" ∅)); [|reflexivity].
    apply Exists_cons_hd. reflexivity.
  - apply (simple_nonpositive_length (SimpleTextSplitter.mk (-2))
             (Examples.one_page "abcde" ∅)); [|simpl; lia].
    apply Exists_cons_hd. reflexivity.
Defined.

(** ** The sentence strategy as a whole *)

Section sentence_strategy.
Import SentenceTextSplitter.
Context `{Encoder}.
Variable self : t.

(** What holds of every chunk of the token recursion: its page number, its
    place in the text, and its token count. *)
Lemma split_chunks_invariant (fuel : nat) (page_num : Z) (text : Py.str) :
  Forall (λ c, SplitPage.page_num c = page_num
               ∧ substring (SplitPage.text c) text
               ∧ Py.len (encode (SplitPage.text c)) ≤ max_tokens_per_section self)
         (yielded (split_page_by_max_tokens self fuel page_num text)).
Proof.
  revert text. induction fuel as [|fuel IH]; intros text; simpl; [constructor|].
  destruct (Z.leb_spec (Py.len (encode text)) (max_tokens_per_section self)).
  - repeat constructor; [apply substring_refl|done].
  - destruct (search_boundary _ _ _ _ _) as [split_pos|e]; simpl; [|constructor].
    destruct (halves_substring text split_pos) as [H1 H2].
    destruct (halves text split_pos) as [first second]. simpl in H1, H2.
    apply g_seq_yielded_Forall.
    + eapply Forall_impl; [apply IH|]. intros c (? & ? & ?).
      split_and!; [done| |done]. by eapply substring_trans.
    + eapply Forall_impl; [apply IH|]. intros c (? & ? & ?).
      split_and!; [done| |done]. by eapply substring_trans.
Qed.

Lemma find_page_loop_member (pages : list Page.t) (offset n : Z) :
  find_page_loop pages offset = Some n →
  ∃ p, p ∈ pages ∧ n = Page.page_num p.
Proof.
  induction pages as [|p pages IH]; [done|].
  destruct pages as [|q rest]; [done|].
  change (find_page_loop (p :: q :: rest) offset) with
    (if (Page.offset p <=? offset) && (offset <? Page.offset q)
     then Some (Page.page_num p)
     else find_page_loop (q :: rest) offset).
  destruct (_ && _).
  - intros [= <-]. exists p. split; [left|done].
  - intros (p' & Hin & ->)%IH. exists p'. split; [by right|done].
Qed.

Lemma find_page_member (pages : list Page.t) (offset n : Z) :
  _find_page pages offset = Py.Ok n →
  ∃ p, p ∈ pages ∧ n = Page.page_num p.
Proof.
  unfold _find_page.
  destruct (find_page_loop pages offset) as [m|] eqn:Hloop.
  - intros [= <-]. by eapply find_page_loop_member.
  - destruct (last pages) as [p|] eqn:Hlast; [|done].
    intros [= <-]. exists p. split; [|done]. by eapply last_Some_elem_of.
Qed.

(** A property of the chunks of every window of the buffer is a property of
    the chunks of the loop. *)
Lemma window_loop_chunks (P : SplitPage.t → Prop) (pages : list Page.t)
      (all_text : Py.str) (total_len : Z) (rfuel fuel : nat) (start : Z) :
  (∀ page_num s e,
     _find_page pages s = Py.Ok page_num →
     Forall P (yielded (split_page_by_max_tokens self rfuel page_num
                          (Py.slice all_text s e)))) →
  Forall P (yielded (window_loop self pages all_text total_len rfuel fuel start)).
Proof.
  intros HP. revert start.
  induction fuel as [|fuel IH]; intros start; simpl; [constructor|].
  destruct (start <? total_len); [|constructor].
  destruct (extend _ _ _ _) as [[cursor lwb]|e]; simpl; [|constructor].
  destruct (_find_page pages start) as [page_num|e] eqn:Hpage; simpl;
    [|constructor].
  apply g_seq_yielded_Forall; [by apply HP | apply IH].
Qed.

Lemma sentence_split_pages_chunks (fuel : nat) (pages : list Page.t) :
  Forall (λ c, Py.len (encode (SplitPage.text c)) ≤ max_tokens_per_section self
               ∧ substring (SplitPage.text c) (join_text pages)
               ∧ ∃ p, p ∈ pages ∧ SplitPage.page_num c = Page.page_num p)
         (yielded (split_pages self fuel pages)).
Proof.
  assert (∀ rfuel page_num text s,
            _find_page pages s = Py.Ok page_num →
            substring text (join_text pages) →
            Forall (λ c, Py.len (encode (SplitPage.text c))
                         ≤ max_tokens_per_section self
                         ∧ substring (SplitPage.text c) (join_text pages)
                         ∧ ∃ p, p ∈ pages
                                ∧ SplitPage.page_num c = Page.page_num p)
              (yielded (split_page_by_max_tokens self rfuel page_num text)))
    as Hchunk.
  { intros rfuel page_num text s Hpage Hsub.
    eapply Forall_impl; [apply split_chunks_invariant|].
    intros c (Hn & Ht & Hb). split_and!; [done|by eapply substring_trans|].
    apply find_page_member in Hpage as (p & Hin & ->). eauto. }
  unfold split_pages. destruct (negb _); [constructor|].
  destruct (_ <=? _).
  - destruct (_find_page pages 0) as [page_num|e] eqn:Hpage; simpl;
      [|constructor].
    eapply Hchunk; [done|apply substring_refl].
  - apply window_loop_chunks. intros page_num s e Hpage.
    eapply Hchunk; [done|apply slice_substring].
Qed.

(** X4.  Every chunk that [SentenceTextSplitter.split_pages] yields, for any
    pages, is within the token budget, is a contiguous substring of the
    concatenated text, and carries the [page_num] of one of the pages. *)
Theorem sentence_chunks_fit_and_belong (fuel : nat) (pages : list Page.t) :
  Forall (λ c, Py.len (encode (SplitPage.text c)) ≤ max_tokens_per_section self
               ∧ substring (SplitPage.text c) (join_text pages)
               ∧ ∃ p, p ∈ pages ∧ SplitPage.page_num c = Page.page_num p)
         (yielded (split_pages self fuel pages)).
Proof. apply sentence_split_pages_chunks. Qed.

End sentence_strategy.

(** X5.  [_find_page] raises IndexError on an empty list of pages and on no
    other; on a non-empty list, sorted or not, and for any offset, negative
    ones too, it returns the [page_num] of one of the pages. *)
Theorem find_page_returns_a_page (pages : list Page.t) (offset : Z) :
  (pages = [] ∧ SentenceTextSplitter._find_page pages offset
                = Py.Err Py.IndexError)
  ∨ (∃ p, p ∈ pages
          ∧ SentenceTextSplitter._find_page pages offset
            = Py.Ok (Page.page_num p)).
Proof.
  destruct pages as [|p0 pages]; [by left|right].
  destruct (find_page_no_raise (p0 :: pages) offset) as [n Hn]; [done|].
  destruct (find_page_member _ _ _ Hn) as (p & Hin & ->). eauto.
Qed.

(** ** The sentence strategy: exceptions, termination, reconstruction *)

Section sentence_runs.
Import SentenceTextSplitter.
Context `{Encoder}.
Variable self : t.



(** With [section_overlap = 0] and every window within the token budget, the
    chunks from [start] on are the rest of the buffer. *)
Lemma window_loop_reconstructs (pages : list Page.t) (all_text : Py.str)
      (rfuel fuel : nat) (start : Z) :
  section_overlap self = 0 → 0 < max_section_length self →
  (∀ t, substring t all_text →
        Py.len (encode t) ≤ max_tokens_per_section self) →
  pages ≠ [] → 0 ≤ start ≤ Py.len all_text →
  (0 < rfuel)%nat → (Z.to_nat (Py.len all_text - start) < fuel)%nat →
  stopped (window_loop self pages all_text (Py.len all_text) rfuel fuel start)
  = Returned
  ∧ concat (SplitPage.text <$>
              yielded (window_loop self pages all_text (Py.len all_text)
                         rfuel fuel start))
    = drop (Z.to_nat start) all_text.
Proof.
  intros Hov Hmax Hfit Hne Hstart Hrfuel. revert start Hstart.
  induction fuel as [|fuel IH]; intros start Hstart Hfuel; [lia|]. simpl.
  destruct (Z.ltb_spec start (Py.len all_text)).
  2:{ split; [done|]. simpl. rewrite drop_ge; [done|]. unfold Py.len in *. lia. }
  set (end_ := Z.min _ _).
  destruct (scan_no_raise self all_text end_
              (Z.to_nat (Py.len all_text - end_)) end_ (-1))
    as [[cursor lwb] Hext]; [lia|].
  unfold extend. rewrite Hext. simpl.
  pose proof (cut_bound self all_text end_ cursor lwb) as Hcut.
  unfold extend in Hcut. specialize (Hcut ltac:(lia) Hext).
  apply scan_bounds in Hext; [|lia].
  assert (end_ ≤ cut (Py.len all_text) cursor lwb) as Hcut'.
  { unfold cut. destruct (cursor <? _); simpl; [|lia].
    destruct (Z.ltb_spec 0 lwb); lia. }
  set (c := cut (Py.len all_text) cursor lwb) in *.
  destruct (find_page_no_raise pages start Hne) as [page_num ->]. simpl.
  destruct rfuel as [|rfuel]; [lia|].
  assert (split_page_by_max_tokens self (S rfuel) page_num
            (Py.slice all_text start c)
          = g_yield (SplitPage.make page_num (Py.slice all_text start c)))
    as ->.
  { simpl. destruct (Z.leb_spec
                       (Py.len (encode (Py.slice all_text start c)))
                       (max_tokens_per_section self)) as [|Hbig]; [done|].
    specialize (Hfit _ (slice_substring all_text start c)). lia. }
  destruct (IH (c - section_overlap self)) as [Hret Hcat]; [lia|lia|].
  unfold g_seq. simpl. split; [done|].
  change (list_fmap _ _ SplitPage.text ?l) with (SplitPage.text <$> l).
  rewrite Hcat, Hov, Z.sub_0_r, slice_nonneg by lia.
  replace (Z.to_nat c) with (Z.to_nat start + Z.to_nat (c - start))%nat by lia.
  rewrite <- drop_drop. apply take_drop.
Qed.

(** X7.  With [section_overlap = 0], a positive [max_section_length] and a
    token budget that every piece of the buffer fits, [split_pages] on a
    buffer that is not all whitespace returns, and its chunks, put end to
    end, are the buffer. *)
Theorem sentence_chunks_concat_to_buffer (fuel : nat) (pages : list Page.t) :
  section_overlap self = 0 → 0 < max_section_length self →
  (∀ t, substring t (join_text pages) →
        Py.len (encode t) ≤ max_tokens_per_section self) →
  Exists (λ c, Py.isspace c = false) (join_text pages) →
  (length (join_text pages) < fuel)%nat →
  stopped (split_pages self fuel pages) = Returned
  ∧ concat (SplitPage.text <$> yielded (split_pages self fuel pages))
    = join_text pages.
Proof.
  intros Hov Hmax Hfit Hns Hfuel. unfold split_pages.
  rewrite nonblank_guard by done.
  assert (pages ≠ []) as Hne by (intros ->; inversion Hns).
  destruct (Z.leb_spec (Py.len (join_text pages)) (max_section_length self)).
  - destruct (find_page_no_raise pages 0 Hne) as [page_num ->]. simpl.
    destruct fuel as [|fuel]; [lia|]. simpl.
    destruct (Z.leb_spec (Py.len (encode (join_text pages)))
                (max_tokens_per_section self)) as [|Hbig].
    + simpl. by rewrite app_nil_r.
    + specialize (Hfit _ (substring_refl _)). lia.
  - destruct (window_loop_reconstructs pages (join_text pages) fuel fuel 0)
      as [Hret Hcat]; try done; unfold Py.len in *; lia.
Qed.

(** X8.  With [section_overlap = 0], a positive [max_section_length] and a
    token budget that every text of at most one character fits,
    [split_pages] returns, after at most as many iterations and at a
    recursion depth of at most the length of the buffer. *)
Theorem sentence_split_pages_returns_without_overlap (fuel : nat)
        (pages : list Page.t) :
  section_overlap self = 0 → 0 < max_section_length self →
  (∀ t, Py.len t ≤ 1 → Py.len (encode t) ≤ max_tokens_per_section self) →
  (length (join_text pages) < fuel)%nat →
  stopped (split_pages self fuel pages) = Returned.
Proof.
  intros Hov Hmax Hunit Hfuel. unfold split_pages.
  destruct (negb _) eqn:Hblank; [done|].
  assert (pages ≠ []) as Hne by (by intros ->).
  destruct (Z.leb_spec (Py.len (join_text pages)) (max_section_length self)).
  - destruct (find_page_no_raise pages 0 Hne) as [page_num ->]. simpl.
    by apply split_page_by_max_tokens_returns.
  - apply window_loop_returns_without_overlap; try done.
    unfold Py.len. lia.
Qed.

End sentence_runs.

(** X9.  [__init__] with a positive [max_section_length] and an
    [overlap_percent] from 0 to 99, their product being below 2^50 so that
    the float division of [__init__] is exact, gives a [section_overlap] that
    is not negative and is below [max_section_length]. *)
Theorem init_overlap_below_section_length
        (max_tokens max_section_length overlap_percent limit : Z) :
  0 < max_section_length → 0 ≤ overlap_percent < 100 →
  max_section_length * overlap_percent < 2 ^ 50 →
  let self := SentenceTextSplitter.init max_tokens max_section_length
                overlap_percent limit in
  0 ≤ SentenceTextSplitter.section_overlap self
    < SentenceTextSplitter.max_section_length self.
Proof.
  intros HM Hp _. simpl. unfold Py.int_percent.
  rewrite Z.quot_div_nonneg by nia. split.
  - apply Z.div_pos; nia.
  - apply Z.div_lt_upper_bound; nia.
Qed.

Lemma init_overlap_below_section_length_witness :
  0 ≤ SentenceTextSplitter.section_overlap SentenceTextSplitter.default
    < SentenceTextSplitter.max_section_length SentenceTextSplitter.default.
Proof.
  apply (init_overlap_below_section_length 500 1000 10 100); [lia|lia|].
  vm_compute. reflexivity.
Defined.


Lemma sentence_chunks_concat_to_buffer_witness :
  concat (SplitPage.text <$>
            yielded (SentenceTextSplitter.split_pages
                       (H := Examples.char_encoder)
                       (SentenceTextSplitter.init 500 4 0 100) 13
                       (Examples.one_page "aaaa bb. ccc" ∅)))
  = Py.lit "aaaa bb. ccc".
Proof.
  apply (@sentence_chunks_concat_to_buffer Examples.char_encoder
           (SentenceTextSplitter.init 500 4 0 100) 13
           (Examples.one_page "aaaa bb. ccc" ∅)).
  - reflexivity.
  - simpl. lia.
  - intros t (pre & post & Ht). apply (f_equal length) in Ht.
    rewrite !length_app in Ht.
    change (length (join_text (Examples.one_page "aaaa bb. ccc" ∅)))
      with 12%nat in Ht.
    unfold encode, Examples.char_encoder, Py.len, Py.str, Py.codepoint in *.
    simpl. lia.
  - apply Exists_cons_hd. reflexivity.
  - simpl. lia.
Defined.

Lemma sentence_split_pages_returns_without_overlap_witness :
  stopped (SentenceTextSplitter.split_pages (H := Examples.char_encoder)
             (SentenceTextSplitter.init 3 4 0 100) 13
             (Examples.one_page "aaaa bb. ccc" ∅))
  = Returned.
Proof.
  apply (@sentence_split_pages_returns_without_overlap Examples.char_encoder
           (SentenceTextSplitter.init 3 4 0 100) 13
           (Examples.one_page "aaaa bb. ccc" ∅)).
  - reflexivity.
  - simpl. lia.
  - intros t Ht.
    unfold encode, Examples.char_encoder, Py.len, Py.str, Py.codepoint in *.
    simpl. lia.
  - simpl. lia.
Defined.

(** ** The token recursion: termination, cover, and the place of the split *)

Section recursion_cover.
Import SentenceTextSplitter.
Context `{Encoder}.
Variable self : t.

(** The two halves are a prefix and a suffix of the text that together leave
    no gap. *)
Lemma halves_take_drop (text : Py.str) (split_pos : Z) :
  split_pos = -1 ∨ 1 ≤ split_pos ≤ Py.len text - 1 →
  ∃ a b : nat, (b ≤ a ≤ length text)%nat
               ∧ halves text split_pos = (take a text, drop b text).
Proof.
  intros Hsp. unfold halves. destruct (Z.ltb_spec split_pos 0).
  - destruct (fallback_bounds text) as (Hb0 & Hb1 & Hb2).
    rewrite fallback_halves_take_drop. eexists _, _. split; [|done].
    unfold Py.len in *. lia.
  - exists (Z.to_nat split_pos), (Z.to_nat split_pos).
    rewrite slice_to_take, slice_from_drop by lia.
    split; [|done]. unfold Py.len in *. lia.
Qed.

Lemma occurs_at_length {A} (c : list A) (o : nat) (t : list A) :
  occurs_at c o t → (o + length c ≤ length t ∨ c = [])%nat.
Proof.
  unfold occurs_at. intros Hc. destruct c as [|x c]; [by right|left].
  apply (f_equal length) in Hc. rewrite length_take, length_drop in Hc.
  cbn [length] in *. lia.
Qed.

Lemma occurs_at_take {A} (c : list A) (o a : nat) (t : list A) :
  c ≠ [] → occurs_at c o (take a t) → occurs_at c o t.
Proof.
  intros Hne Hc. destruct (occurs_at_length _ _ _ Hc) as [Hl|]; [|done].
  unfold occurs_at in *. rewrite length_take in Hl.
  transitivity (take (length c) (drop o (take a t))); [|done].
  replace a with (o + (a - o))%nat at 1 by lia.
  rewrite <- take_drop_commute, take_take. f_equal. lia.
Qed.

Lemma occurs_at_drop {A} (c : list A) (o b : nat) (t : list A) :
  occurs_at c o (drop b t) → occurs_at c (b + o) t.
Proof. unfold occurs_at. by rewrite drop_drop. Qed.

Lemma covered_halves {A} (t : list A) (a b : nat) (xs ys : list (list A)) :
  (b ≤ a ≤ length t)%nat →
  covered (take a t) xs → covered (drop b t) ys → covered t (xs ++ ys).
Proof.
  intros Hab Hx Hy i Hi. destruct (decide (i < a)%nat) as [Hlt|Hge].
  - destruct (Hx i) as (c & o & Hin & Hocc & Hio).
    { rewrite length_take. lia. }
    exists c, o. split_and!; [apply elem_of_app; by left| |lia|lia].
    apply occurs_at_take with a; [|done]. intros ->. simpl in Hio. lia.
  - destruct (Hy (i - b)%nat) as (c & o & Hin & Hocc & Hio).
    { rewrite length_drop. lia. }
    exists c, (b + o)%nat. split_and!; [apply elem_of_app; by right| |lia|lia].
    by apply occurs_at_drop.
Qed.

(** X10.  When every text of at most one character is within the token
    budget, [split_page_by_max_tokens] returns, at a recursion depth of at
    most the length of the text, and it yields at least one chunk. *)
Theorem token_recursion_returns_chunks (fuel : nat) (page_num : Z)
        (text : Py.str) :
  (∀ t, Py.len t ≤ 1 → Py.len (encode t) ≤ max_tokens_per_section self) →
  (length text < fuel)%nat →
  stopped (split_page_by_max_tokens self fuel page_num text) = Returned
  ∧ yielded (split_page_by_max_tokens self fuel page_num text) ≠ [].
Proof.
  intros Hunit Hfuel.
  pose proof (split_page_by_max_tokens_returns self fuel page_num text
                Hunit Hfuel) as Hret.
  split; [done|]. clear Hfuel. revert text Hret.
  induction fuel as [|fuel IH]; intros text; simpl; [done|].
  destruct (_ <=? _); [done|].
  destruct (search_boundary _ _ _ _ _) as [split_pos|e]; simpl; [|done].
  destruct (halves text split_pos) as [first second].
  unfold g_seq.
  destruct (stopped (split_page_by_max_tokens self fuel page_num first)) eqn:E;
    simpl; [|by rewrite E..].
  intros Hs Hnil. apply app_eq_nil in Hnil as [Hnil _]. by apply IH in E.
Qed.

(** X11.  When [split_page_by_max_tokens] returns, its chunks cover the text:
    every character position of the text lies inside an occurrence of one of
    the chunks, so no character is dropped by the splits. *)
Theorem token_recursion_covers_text (fuel : nat) (page_num : Z)
        (text : Py.str) :
  stopped (split_page_by_max_tokens self fuel page_num text) = Returned →
  covered text
    (SplitPage.text <$> yielded (split_page_by_max_tokens self fuel page_num text)).
Proof.
  revert text. induction fuel as [|fuel IH]; intros text; simpl; [done|].
  destruct (_ <=? _).
  - intros _ i Hi. exists text, 0%nat. split_and!; [by left| |lia|lia].
    unfold occurs_at. rewrite drop_0. by apply take_ge.
  - destruct (search_boundary_inside self text (seqZ 0 (Py.len text / 3)))
      as (split_pos & -> & Hsp); [apply range_boundary|]. simpl.
    destruct (halves_take_drop text split_pos Hsp) as (a & b & Hab & ->).
    unfold g_seq.
    destruct (stopped (split_page_by_max_tokens self fuel page_num
                         (take a text))) eqn:E1; simpl; [|by rewrite E1..].
    intros E2. rewrite fmap_app.
    apply covered_halves with a b; [done|by apply IH..].
Qed.

End recursion_cover.

Lemma token_recursion_returns_chunks_witness :
  stopped (SentenceTextSplitter.split_page_by_max_tokens
             (H := Examples.char_encoder)
             (SentenceTextSplitter.init 10 1000 10 100) 29 0
             (Py.lit "Hello world. This is a test!")) = Returned
  ∧ yielded (SentenceTextSplitter.split_page_by_max_tokens
               (H := Examples.char_encoder)
               (SentenceTextSplitter.init 10 1000 10 100) 29 0
               (Py.lit "Hello world. This is a test!")) ≠ [].
Proof.
  apply (@token_recursion_returns_chunks Examples.char_encoder
           (SentenceTextSplitter.init 10 1000 10 100) 29 0
           (Py.lit "Hello world. This is a test!")).
  - intros t Ht.
    unfold encode, Examples.char_encoder, Py.len, Py.str, Py.codepoint in *.
    simpl. lia.
  - simpl. lia.
Defined.

Lemma token_recursion_covers_text_witness :
  covered (Py.lit "Hello world. This is a test!")
    [Py.lit "Hello w"; Py.lit " world."; Py.lit " This is "; Py.lit "s a test!"].
Proof.
  apply (@token_recursion_covers_text Examples.char_encoder
           (SentenceTextSplitter.init 10 1000 10 100) 3 0
           (Py.lit "Hello world. This is a test!")).
  reflexivity.
Defined.

(** ** Where the token recursion cuts *)

Section boundary_search.
Import SentenceTextSplitter.
Variable self : t.
Variable text : Py.str.

Local Abbreviation center := (Py.len text / 2).
Local Abbreviation ending i := (char_in text i (sentence_endings self)).

Lemma ending_in_range (i : Z) :
  0 ≤ i < Py.len text → ∃ b, ending i = Py.Ok b.
Proof.
  intros Hi. unfold char_in.
  destruct (getitem_in_range text i Hi) as [c ->]. simpl. eauto.
Qed.

Lemma probes_in_range (o : Z) :
  0 ≤ o < Py.len text / 3 →
  0 < center - o < Py.len text ∧ 0 ≤ center + o < Py.len text.
Proof.
  pose proof (len_nonneg text) as Hl. revert Hl.
  generalize (Py.len text). intros m Hm Ho. Z.div_mod_to_equations. lia.
Qed.

(** The search tries the offsets in order, to the left first, and stops at
    the first sentence ending. *)
Lemma search_boundary_scan (os : list Z) (sp : Z) :
  Forall (λ o, 0 ≤ o < Py.len text / 3) os →
  search_boundary self text (Py.len text) center os = Py.Ok sp →
  (sp = -1
   ∧ Forall (λ o, ending (center - o) = Py.Ok false
                  ∧ ending (center + o) = Py.Ok false) os)
  ∨ ∃ pre o post,
      os = pre ++ o :: post
      ∧ Forall (λ o', ending (center - o') = Py.Ok false
                      ∧ ending (center + o') = Py.Ok false) pre
      ∧ ((ending (center - o) = Py.Ok true ∧ sp = center - o + 1)
         ∨ (ending (center - o) = Py.Ok false
            ∧ ending (center + o) = Py.Ok true ∧ sp = center + o + 1)).
Proof.
  induction 1 as [|o os Ho _ IH]; simpl.
  - intros [= <-]. left. by split.
  - destruct (probes_in_range o Ho) as [Hleft Hright].
    destruct (Z.ltb_spec 0 (center - o)); [|lia].
    destruct (Z.ltb_spec (center + o) (Py.len text)); [|lia].
    destruct (ending_in_range (center - o)) as [l Hl]; [lia|].
    destruct (ending_in_range (center + o)) as [r Hr]; [lia|].
    rewrite Hl. simpl. destruct l.
    { intros [= <-]. right. exists [], o, os. split_and!; [done|constructor|].
      by left. }
    rewrite Hr. simpl. destruct r.
    { intros [= <-]. right. exists [], o, os. split_and!; [done|constructor|].
      by right. }
    intros Hrest. destruct (IH Hrest) as [[-> Hall]|(pre & o' & post & -> & Hpre & Hhit)].
    + left. split; [done|]. by constructor.
    + right. exists (o :: pre), o', post. split_and!; [done|by constructor|done].
Qed.

(** X12.  The search of [split_page_by_max_tokens] finds the sentence ending
    nearest to the middle of the text among the positions less than a third
    of the length away from it, the one on the left when two are equally
    near, and the split is right after it; the fallback is taken only when
    there is no sentence ending among those positions. *)
Theorem split_after_nearest_sentence_ending :
  ∃ split_pos,
    search_boundary self text (Py.len text) center (seqZ 0 (Py.len text / 3))
    = Py.Ok split_pos
    ∧ ((split_pos = -1
        ∧ ∀ i, Z.abs (i - center) < Py.len text / 3 → ending i = Py.Ok false)
       ∨ (0 < split_pos < Py.len text
          ∧ Z.abs (split_pos - 1 - center) < Py.len text / 3
          ∧ ending (split_pos - 1) = Py.Ok true
          ∧ (∀ i, Z.abs (i - center) < Z.abs (split_pos - 1 - center) →
                  ending i = Py.Ok false)
          ∧ (center < split_pos - 1 →
             ending (center - (split_pos - 1 - center)) = Py.Ok false))).
Proof.
  destruct (search_boundary_inside self text (seqZ 0 (Py.len text / 3)))
    as (sp & Hs & Hsp); [apply range_boundary|].
  exists sp. split; [done|].
  destruct (search_boundary_scan _ _ (range_boundary _) Hs)
    as [[-> Hall]|(pre & o & post & Hos & Hpre & Hhit)].
  - left. split; [done|]. intros i Hi.
    rewrite Forall_forall in Hall.
    destruct (Hall (Z.abs (i - center))) as [Hl Hr]; [apply elem_of_seqZ; lia|].
    destruct (Z.abs_spec (i - center)) as [[_ E]|[_ E]]; rewrite E in *.
    + by replace i with (center + (i - center)) by lia.
    + by replace i with (center - - (i - center)) by lia.
  - right.
    assert (o = Z.of_nat (length pre) ∧ o < Py.len text / 3) as [Ho Hob].
    { assert (seqZ 0 (Py.len text / 3) !! length pre = Some o) as Hl.
      { rewrite Hos. by rewrite list_lookup_middle. }
      apply lookup_seqZ in Hl. lia. }
    assert (∀ o', 0 ≤ o' < o →
                  ending (center - o') = Py.Ok false
                  ∧ ending (center + o') = Py.Ok false) as Hnear.
    { intros o' Ho'. rewrite Forall_forall in Hpre. apply Hpre.
      apply list_elem_of_lookup. exists (Z.to_nat o').
      assert (seqZ 0 (Py.len text / 3) !! Z.to_nat o' = Some o') as Hl.
      { apply lookup_seqZ. lia. }
      rewrite Hos, lookup_app_l in Hl by lia. done. }
    assert (∀ d i, 0 ≤ d ≤ o → Z.abs (i - center) < d →
                   ending i = Py.Ok false) as Hall.
    { intros d i Hd Hi.
      destruct (Hnear (Z.abs (i - center))) as [Hl Hr]; [lia|].
      destruct (Z.abs_spec (i - center)) as [[_ E]|[_ E]]; rewrite E in *.
      + by replace i with (center + (i - center)) by lia.
      + by replace i with (center - - (i - center)) by lia. }
    destruct (probes_in_range o) as [Hleft Hright]; [lia|].
    destruct Hhit as [[Hl ->]|(Hl & Hr & ->)].
    + replace (center - o + 1 - 1) with (center - o) by lia.
      split_and!; [lia|lia|lia|done| |lia].
      intros i Hi. apply (Hall o); lia.
    + replace (center + o + 1 - 1) with (center + o) by lia.
      split_and!; [lia|lia|lia|done| |].
      * intros i Hi. apply (Hall o); lia.
      * intros _. by replace (center - (center + o - center)) with (center - o)
          by lia.
Qed.

End boundary_search.

(** ** Loading the pages (splitter.py) *)

Section loading.
Import Slices.

Lemma load_blocks_length meta idx offset blocks :
  length (load_blocks meta idx offset blocks) = length blocks.
Proof.
  revert idx offset. induction blocks as [|t blocks IH]; intros; simpl; [done|].
  by rewrite IH.
Qed.

Lemma load_blocks_lookup meta idx offset blocks (i : nat) text :
  blocks !! i = Some text →
  load_blocks meta idx offset blocks !! i
  = Some (Page.mk (idx + Z.of_nat i)
            (offset + Py.len (concat (take i blocks))) text meta).
Proof.
  revert idx offset i. induction blocks as [|t blocks IH]; intros idx offset i;
    [done|].
  destruct i as [|i]; simpl.
  - intros [= ->]. do 2 f_equal; [lia|]. unfold Py.len. simpl. lia.
  - intros Hi. rewrite (IH _ _ _ Hi). do 2 f_equal; [lia|].
    rewrite len_app. lia.
Qed.

Lemma load_blocks_elem meta idx offset blocks p :
  p ∈ load_blocks meta idx offset blocks →
  ∃ i : nat, (i < length blocks)%nat
             ∧ load_blocks meta idx offset blocks !! i = Some p
             ∧ Page.page_num p = idx + Z.of_nat i
             ∧ Page.meta p = meta.
Proof.
  intros (i & Hi)%list_elem_of_lookup.
  pose proof (lookup_lt_Some _ _ _ Hi) as Hlt.
  rewrite load_blocks_length in Hlt.
  destruct (lookup_lt_is_Some_2 blocks i Hlt) as [text Ht].
  rewrite (load_blocks_lookup _ _ _ _ _ _ Ht) in Hi. injection Hi as <-.
  exists i. split_and!; [done| |done|done].
  by apply load_blocks_lookup.
Qed.

Lemma load_blocks_join meta idx offset blocks :
  join_text (load_blocks meta idx offset blocks) = concat blocks.
Proof.
  revert idx offset. induction blocks as [|t blocks IH]; intros; [done|].
  unfold join_text in *. simpl. by rewrite IH.
Qed.

Lemma load_blocks_sorted meta idx offset blocks :
  sorted_by_offset (load_blocks meta idx offset blocks).
Proof.
  revert idx offset. induction blocks as [|t blocks IH]; intros idx offset;
    [apply Sorted_nil|].
  simpl. apply Sorted_cons; [apply IH|].
  destruct blocks as [|t' blocks]; simpl; [apply HdRel_nil|].
  apply HdRel_cons. unfold le_offset. simpl.
  pose proof (len_nonneg t). lia.
Qed.

(** On loaded pages the locator returns the index of the page that holds the
    character at the offset. *)
Lemma load_blocks_find_page meta idx offset blocks (pos : Z) :
  offset ≤ pos < offset + Py.len (concat blocks) →
  ∃ (i : nat) p,
    SentenceTextSplitter._find_page (load_blocks meta idx offset blocks) pos
    = Py.Ok (idx + Z.of_nat i)
    ∧ load_blocks meta idx offset blocks !! i = Some p
    ∧ Page.offset p ≤ pos < Page.offset p + Py.len (Page.text p).
Proof.
  revert idx offset. induction blocks as [|t blocks IH]; intros idx offset Hpos.
  - unfold Py.len in Hpos. simpl in Hpos. lia.
  - destruct blocks as [|t' blocks].
    + exists 0%nat, (Page.mk idx offset t meta). simpl in *.
      rewrite app_nil_r in Hpos. split_and!; [|done|lia|lia].
      unfold SentenceTextSplitter._find_page. simpl. do 2 f_equal. lia.
    + simpl in Hpos. rewrite !len_app in Hpos.
      unfold SentenceTextSplitter._find_page.
      change (load_blocks meta idx offset (t :: t' :: blocks))
        with (Page.mk idx offset t meta
              :: load_blocks meta (idx + 1) (offset + Py.len t) (t' :: blocks)).
      set (rest := load_blocks meta (idx + 1) (offset + Py.len t) (t' :: blocks)).
      assert (∃ q rest', rest = q :: rest' ∧ Page.offset q = offset + Py.len t)
        as (q & rest' & Hrest & Hq) by (by eexists _, _).
      destruct (Z.ltb_spec pos (offset + Py.len t)) as [Hlt|Hge].
      * exists 0%nat, (Page.mk idx offset t meta).
        split_and!; [|done|simpl; lia|simpl; lia].
        rewrite Hrest. simpl. rewrite Hq.
        destruct (Z.leb_spec offset pos); [|lia].
        destruct (Z.ltb_spec pos (offset + Py.len t)); [|lia].
        simpl. do 2 f_equal. lia.
      * destruct (IH (idx + 1) (offset + Py.len t)) as (i & p & Hf & Hp & Hin).
        { simpl. rewrite !len_app. lia. }
        fold rest in Hf, Hp. exists (S i), p.
        split_and!; [|done|lia|lia].
        unfold SentenceTextSplitter._find_page in Hf.
        rewrite Hrest in Hf |- *.
        change (SentenceTextSplitter.find_page_loop
                  (Page.mk idx offset t meta :: q :: rest') pos)
          with (if (offset <=? pos) && (pos <? Page.offset q)
                then Some idx
                else SentenceTextSplitter.find_page_loop (q :: rest') pos).
        rewrite Hq. destruct (Z.ltb_spec pos (offset + Py.len t)); [lia|].
        rewrite andb_false_r, last_cons_cons.
        replace (idx + Z.of_nat (S i)) with (idx + 1 + Z.of_nat i) by lia.
        exact Hf.
Qed.

End loading.

Lemma load_blocks_lookup_page meta idx offset blocks (i : nat) p :
  Slices.load_blocks meta idx offset blocks !! i = Some p →
  Page.page_num p = idx + Z.of_nat i ∧ Page.meta p = meta.
Proof.
  intros Hi. pose proof (lookup_lt_Some _ _ _ Hi) as Hlt.
  rewrite load_blocks_length in Hlt.
  destruct (lookup_lt_is_Some_2 blocks i Hlt) as [text Ht].
  rewrite (load_blocks_lookup _ _ _ _ _ _ Ht) in Hi. by injection Hi as <-.
Qed.

Lemma getitem_lookup {A} (s : list A) (i : nat) (a : A) :
  s !! i = Some a → Py.getitem s (Z.of_nat i) = Py.Ok a.
Proof.
  intros Hi. unfold Py.getitem.
  destruct (Z.ltb_spec (Z.of_nat i) 0); [lia|].
  destruct (Z.ltb_spec (Z.of_nat i) 0); [lia|].
  by rewrite Nat2Z.id, Hi.
Qed.

(** X13.  [load_pages] makes one page of every block of text, in order: the
    page at index [i] has [page_num = i], the text of block [i], the number
    of characters of the blocks before it as its [offset], and the filled-in
    metadata of the document.  So the pages are sorted by offset, and their
    texts, joined, are the blocks, joined.  A ["text"] that is one string is
    one block, and a missing ["text"] is no block. *)
Theorem load_pages_layout (path stem : string) (d : Slices.doc) :
  let blocks := match default (inr []) (Slices.doc_text d) with
                | inl text => [text]
                | inr blocks => blocks
                end in
  let pages := Slices.load_pages path stem d in
  length pages = length blocks
  ∧ join_text pages = concat blocks
  ∧ sorted_by_offset pages
  ∧ ∀ (i : nat) text,
      blocks !! i = Some text →
      pages !! i
      = Some (Page.mk (Z.of_nat i) (Py.len (concat (take i blocks))) text
                (Slices.fill_meta path stem
                   (default ∅ (Slices.doc_metadata d)))).
Proof.
  intros blocks pages. subst pages. unfold Slices.load_pages. fold blocks.
  split_and!.
  - apply load_blocks_length.
  - apply load_blocks_join.
  - apply load_blocks_sorted.
  - intros i text Hi. by rewrite (load_blocks_lookup _ _ _ _ _ _ Hi).
Qed.

(** X14.  Every page that [load_pages] makes carries ["url"], ["title"] and
    ["category"]: the document's own value where its metadata has the key,
    and otherwise the path, the stem of the path and ["Uncategorized"]; the
    other keys of the document's metadata are carried over as they are. *)
Theorem loaded_pages_have_metadata (path stem : string) (d : Slices.doc)
        (p : Page.t) :
  p ∈ Slices.load_pages path stem d →
  let given := default ∅ (Slices.doc_metadata d) in
  Page.meta p !! "url" = Some (default (Py.VStr path) (given !! "url"))
  ∧ Page.meta p !! "title" = Some (default (Py.VStr stem) (given !! "title"))
  ∧ Page.meta p !! "category"
    = Some (default (Py.VStr "Uncategorized") (given !! "category"))
  ∧ ∀ k, k ≠ "url" → k ≠ "title" → k ≠ "category" →
         Page.meta p !! k = given !! k.
Proof.
  intros Hp given. unfold Slices.load_pages in Hp.
  apply load_blocks_elem in Hp as (i & _ & _ & _ & ->). fold given.
  unfold Slices.fill_meta, Slices.setdefault.
  destruct (given !! "url") as [u|] eqn:Hu;
    destruct (given !! "title") as [t|] eqn:Ht;
    destruct (given !! "category") as [c|] eqn:Hc;
    simplify_map_eq; split_and!; try done;
    intros k ? ? ?; by simplify_map_eq.
Qed.

Lemma loaded_pages_have_metadata_witness :
  let d := Slices.Doc (Some {[ "url" := Py.VStr "https://example.org/a" ]})
             (Some (inr [Py.lit "Hello"; Py.lit " world."])) in
  let p := Page.mk 1 5 (Py.lit " world.")
             (Slices.fill_meta "a_text.json" "a_text"
                {[ "url" := Py.VStr "https://example.org/a" ]}) in
  Page.meta p !! "url" = Some (Py.VStr "https://example.org/a")
  ∧ Page.meta p !! "title" = Some (Py.VStr "a_text")
  ∧ Page.meta p !! "category" = Some (Py.VStr "Uncategorized").
Proof.
  intros d p.
  assert (p ∈ Slices.load_pages "a_text.json" "a_text" d) as Hp.
  { apply list_elem_of_lookup. exists 1%nat. reflexivity. }
  destruct (loaded_pages_have_metadata "a_text.json" "a_text" d p Hp)
    as (Hu & Ht & Hc & _).
  split_and!; [exact Hu | exact Ht | exact Hc].
Defined.

(** X15.  On the pages that [load_pages] makes, [_find_page] of an offset
    inside the concatenated text returns the index of the page whose own
    text holds the character at that offset, pages of empty text being
    passed over. *)
Theorem find_page_on_loaded_pages (path stem : string) (d : Slices.doc)
        (pos : Z) :
  let pages := Slices.load_pages path stem d in
  0 ≤ pos < Py.len (join_text pages) →
  ∃ (i : nat) p,
    SentenceTextSplitter._find_page pages pos = Py.Ok (Z.of_nat i)
    ∧ pages !! i = Some p
    ∧ Page.page_num p = Z.of_nat i
    ∧ Page.offset p ≤ pos < Page.offset p + Py.len (Page.text p).
Proof.
  intros pages Hpos. subst pages. unfold Slices.load_pages in *.
  rewrite load_blocks_join in Hpos.
  destruct (load_blocks_find_page
              (Slices.fill_meta path stem (default ∅ (Slices.doc_metadata d)))
              0 0 _ pos Hpos) as (i & p & Hf & Hp & Hin).
  exists i, p. split_and!; [done|done| |lia|lia].
  by apply load_blocks_lookup_page in Hp as [-> _].
Qed.

Lemma find_page_on_loaded_pages_witness :
  let pages := Slices.load_pages "a_text.json" "a_text"
                 (Slices.Doc None
                    (Some (inr [Py.lit "Hello"; []; Py.lit " world."]))) in
  ∃ (i : nat) p,
    SentenceTextSplitter._find_page pages 5 = Py.Ok (Z.of_nat i)
    ∧ pages !! i = Some p
    ∧ Page.page_num p = Z.of_nat i
    ∧ Page.offset p ≤ 5 < Page.offset p + Py.len (Page.text p).
Proof.
  apply (find_page_on_loaded_pages "a_text.json" "a_text"
           (Slices.Doc None
              (Some (inr [Py.lit "Hello"; []; Py.lit " world."]))) 5).
  vm_compute. split; [discriminate|reflexivity].
Defined.

(** X16.  For the pages that [load_pages] makes, the metadata lookup of
    [slice_one], [pages[split.page_num].meta], finds a page for every chunk
    of the chosen splitter and gives the filled-in metadata of the
    document: it raises no IndexError. *)
Theorem slice_meta_on_loaded_pages `{Encoder} (path stem : string)
        (d : Slices.doc) (fuel : nat) (c : SplitPage.t) :
  let pages := Slices.load_pages path stem d in
  c ∈ yielded (Splitter.chosen_split_pages fuel pages) →
  Splitter.slice_meta pages c
  = Py.Ok (Slices.fill_meta path stem (default ∅ (Slices.doc_metadata d))).
Proof.
  intros pages Hc.
  assert (∃ (i : nat) p, SplitPage.page_num c = Z.of_nat i
                         ∧ pages !! i = Some p) as (i & p & Hn & Hp).
  { unfold Splitter.chosen_split_pages, Splitter.choose_splitter in Hc.
    destruct (Z.ltb_spec Splitter.MAX_OBJECT_LEN (Splitter.total_chars pages))
      as [Hlong|Hshort].
    - pose proof (sentence_split_pages_chunks Splitter.sentence_splitter
                    fuel pages) as Hall.
      rewrite Forall_forall in Hall.
      destruct (Hall c Hc) as (_ & _ & p & Hin & Hn).
      apply load_blocks_elem in Hin as (i & _ & Hp & Hi & _).
      exists i, p. split; [lia|done].
    - unfold split_pages, Splitter.splitter_text_splitter, split_pages,
        simple_text_splitter, SimpleTextSplitter.split_pages in Hc.
      destruct (negb _) eqn:Hblank; [inversion Hc|].
      rewrite total_chars_len in Hshort.
      destruct (Z.leb_spec (Py.len (join_text pages))
                  (SimpleTextSplitter.max_object_length
                     Splitter.simple_splitter)) as [|Hgt];
        [|change (SimpleTextSplitter.max_object_length _) with 1200 in Hgt;
          unfold Splitter.MAX_OBJECT_LEN in *; lia].
      apply list_elem_of_singleton in Hc as ->.
      destruct pages as [|p0 rest] eqn:Hpages; [done|].
      by exists 0%nat, p0. }
  unfold Splitter.slice_meta. rewrite Hn, (getitem_lookup _ _ _ Hp). simpl.
  by apply load_blocks_lookup_page in Hp as [_ ->].
Qed.

Lemma slice_meta_on_loaded_pages_witness :
  let d := Slices.Doc None (Some (inl (Py.lit "Hello world."))) in
  Splitter.slice_meta (Slices.load_pages "a_text.json" "a_text" d)
    (SplitPage.make 0 (Py.lit "Hello world."))
  = Py.Ok (Slices.fill_meta "a_text.json" "a_text" ∅).
Proof.
  intros d.
  apply (@slice_meta_on_loaded_pages Examples.char_encoder
           "a_text.json" "a_text" d 1
           (SplitPage.make 0 (Py.lit "Hello world."))).
  apply list_elem_of_singleton. reflexivity.
Defined.

(** X17.  A document of at most [MAX_OBJECT_LEN] characters that is not all
    whitespace goes to the simple splitter and comes out as one chunk, the
    whole text, on page 0; its tokens are not counted. *)
Theorem short_document_is_one_chunk `{Encoder} (fuel : nat)
        (pages : list Page.t) :
  Splitter.total_chars pages ≤ Splitter.MAX_OBJECT_LEN →
  Exists (λ c, Py.isspace c = false) (join_text pages) →
  Splitter.chosen_split_pages fuel pages
  = Gen [SplitPage.make 0 (join_text pages)] Returned.
Proof.
  intros Hshort Hns.
  unfold Splitter.chosen_split_pages, Splitter.choose_splitter.
  destruct (Z.ltb_spec Splitter.MAX_OBJECT_LEN (Splitter.total_chars pages));
    [lia|].
  unfold split_pages, Splitter.splitter_text_splitter, split_pages,
    simple_text_splitter, SimpleTextSplitter.split_pages.
  rewrite nonblank_guard by done. rewrite total_chars_len in Hshort.
  destruct (Z.leb_spec (Py.len (join_text pages))
              (SimpleTextSplitter.max_object_length Splitter.simple_splitter))
    as [|Hgt]; [done|].
  change (SimpleTextSplitter.max_object_length _) with 1200 in Hgt.
  unfold Splitter.MAX_OBJECT_LEN in *. lia.
Qed.

Lemma short_document_is_one_chunk_witness :
  Splitter.chosen_split_pages (H := Examples.char_encoder) 1
    (Examples.one_page "Hello world." ∅)
  = Gen [SplitPage.make 0 (Py.lit "Hello world.")] Returned.
Proof.
  apply (@short_document_is_one_chunk Examples.char_encoder 1
           (Examples.one_page "Hello world." ∅)).
  - vm_compute. discriminate.
  - apply Exists_cons_hd. reflexivity.
Defined.

(** ** The identifier of a slice (splitter.py) *)

Section slice_id.
Import PyStr.

Local Abbreviation step := (λ (acc : Z) (c : Py.codepoint), 10 * acc + (Z.of_N c - 48)).

Lemma digits_go_value (fuel : nat) (n : Z) (acc : Py.str) :
  0 ≤ n < 2 ^ Z.of_nat fuel →
  foldl step 0 (digits_go fuel n acc) = foldl step n acc.
Proof.
  revert n acc. induction fuel as [|fuel IH]; intros n acc Hn.
  - simpl in *. by replace n with 0 by lia.
  - rewrite Nat2Z.inj_succ, Z.pow_succ_r in Hn by lia.
    assert (Z.of_N (48 + Z.to_N (n mod 10)) - 48 = n mod 10) as Hd.
    { pose proof (Z.mod_pos_bound n 10). lia. }
    pose proof (Z.div_mod n 10) as Hdm.
    simpl. destruct (Z.eqb_spec (n / 10) 0) as [Hz|Hz].
    + simpl. rewrite Hd. f_equal. lia.
    + rewrite IH.
      * simpl. rewrite Hd. f_equal. lia.
      * split; [apply Z.div_pos; lia|].
        apply Z.div_lt_upper_bound; lia.
Qed.

Lemma decimal_value_digits (n : Z) : 0 ≤ n → decimal_value (digits n) = n.
Proof.
  intros Hn. unfold decimal_value, digits. rewrite digits_go_value; [done|].
  split; [done|]. rewrite Nat2Z.inj_succ, Z2Nat.id by apply Z.log2_nonneg.
  destruct (Z.eq_dec n 0) as [->|]; [done|].
  apply Z.log2_spec. lia.
Qed.

Lemma decimal_value_zfill (width : nat) (s : Py.str) :
  decimal_value (zfill width s) = decimal_value s.
Proof.
  unfold decimal_value, zfill. rewrite foldl_app. f_equal.
  induction (width - length s)%nat as [|k IH]; [done|]. simpl. exact IH.
Qed.

Lemma decimal_value_format_03 (n : Z) :
  0 ≤ n → decimal_value (format_03 n) = n.
Proof.
  intros Hn. unfold format_03. destruct (Z.ltb_spec n 0); [lia|].
  by rewrite decimal_value_zfill, decimal_value_digits.
Qed.

Lemma digits_go_digits (fuel : nat) (n : Z) (acc : Py.str) :
  0 ≤ n → Forall (λ c, (48 ≤ c ≤ 57)%N) acc →
  Forall (λ c, (48 ≤ c ≤ 57)%N) (digits_go fuel n acc).
Proof.
  revert n acc. induction fuel as [|fuel IH]; intros n acc Hn Hacc; [done|].
  simpl.
  assert (Forall (λ c, (48 ≤ c ≤ 57)%N) ((48 + Z.to_N (n mod 10))%N :: acc))
    as Hacc'.
  { constructor; [|done]. pose proof (Z.mod_pos_bound n 10). lia. }
  destruct (n / 10 =? 0); [done|]. apply IH; [|done].
  apply Z.div_pos; lia.
Qed.

(** The digits of a positive number do not begin with a zero. *)
Lemma digits_go_head (fuel : nat) (n : Z) (acc : Py.str) :
  0 < n < 2 ^ Z.of_nat fuel →
  ∃ c rest, digits_go fuel n acc = c :: rest ∧ c ≠ 48%N.
Proof.
  revert n acc. induction fuel as [|fuel IH]; intros n acc Hn.
  - simpl in Hn. lia.
  - rewrite Nat2Z.inj_succ, Z.pow_succ_r in Hn by lia.
    pose proof (Z.div_mod n 10) as Hdm.
    pose proof (Z.mod_pos_bound n 10) as Hmod.
    simpl. destruct (Z.eqb_spec (n / 10) 0) as [Hz|Hz].
    + eexists _, _. split; [done|]. lia.
    + apply IH. split.
      * assert (0 ≤ n / 10) by (apply Z.div_pos; lia). lia.
      * apply Z.div_lt_upper_bound; lia.
Qed.

Lemma digits_head (n : Z) :
  0 < n → ∃ c rest, digits n = c :: rest ∧ c ≠ 48%N.
Proof.
  intros Hn. unfold digits. apply digits_go_head. split; [done|].
  rewrite Nat2Z.inj_succ, Z2Nat.id by apply Z.log2_nonneg.
  apply Z.log2_spec. lia.
Qed.

(** [f"{n:03}"] of [0 <= n]: digits only, three at least, and more than
    three only without a leading zero. *)
Lemma format_03_shape (n : Z) :
  0 ≤ n →
  Forall (λ c, (48 ≤ c ≤ 57)%N) (format_03 n)
  ∧ (3 ≤ length (format_03 n))%nat
  ∧ ((3 < length (format_03 n))%nat → head (format_03 n) ≠ Some 48%N).
Proof.
  intros Hn. unfold format_03. destruct (Z.ltb_spec n 0); [lia|].
  unfold zfill. split_and!.
  - apply Forall_app. split.
    + apply Forall_replicate. cbv beta. lia.
    + unfold digits. apply digits_go_digits; [done|constructor].
  - rewrite length_app, length_replicate.
    unfold Py.str, Py.codepoint in *. lia.
  - rewrite length_app, length_replicate. intros Hlong.
    assert (3 - length (digits n) = 0)%nat as ->
      by (unfold Py.str, Py.codepoint in *; lia).
    simpl.
    destruct (Z.eq_dec n 0) as [->|Hnz].
    { vm_compute in Hlong. lia. }
    destruct (digits_head n) as (c & rest & -> & Hc); [lia|].
    simpl. congruence.
Qed.

(** X18.  For an index that is not negative, the identifier is the base64
    part without its padding, two underscores, and the index in decimal,
    padded with zeros to three digits: a suffix of digits only, of three
    characters at least, longer than three only when it has no leading
    zero, whose decimal value is the index.  So the index can be read back
    from the identifier, and two slices of one file, which have the same
    base64 part and different indices, never have the same identifier. *)
Theorem make_id_keeps_the_index (b64 : Py.str) (index : Z) :
  0 ≤ index →
  let suffix := drop (length (rstrip_char 61%N b64) + 2)
                  (Slices.make_id b64 index) in
  Slices.make_id b64 index = rstrip_char 61%N b64 ++ Py.lit "__" ++ suffix
  ∧ Forall (λ c, (48 ≤ c ≤ 57)%N) suffix
  ∧ (3 ≤ length suffix)%nat
  ∧ ((3 < length suffix)%nat → head suffix ≠ Some 48%N)
  ∧ decimal_value suffix = index
  ∧ ∀ other, 0 ≤ other →
             Slices.make_id b64 index = Slices.make_id b64 other →
             index = other.
Proof.
  intros Hi.
  assert (∀ n, drop (length (rstrip_char 61%N b64) + 2) (Slices.make_id b64 n)
               = format_03 n) as Hsuffix.
  { intros n. unfold Slices.make_id.
    by rewrite <- drop_drop, drop_app_length. }
  intros suffix. subst suffix. rewrite Hsuffix.
  destruct (format_03_shape index Hi) as (Hdigits & Hlen & Hhead).
  split_and!; [done|done|done|done|by apply decimal_value_format_03|].
  intros other Ho Heq.
  rewrite <- (decimal_value_format_03 index Hi), <- (Hsuffix index), Heq,
    Hsuffix.
  by apply decimal_value_format_03.
Qed.

End slice_id.

Lemma make_id_keeps_the_index_witness :
  Slices.make_id (Py.lit "YQ==") 12 = Py.lit "YQ" ++ Py.lit "__" ++ Py.lit "012"
  ∧ (3 ≤ length (Py.lit "012"))%nat
  ∧ PyStr.decimal_value (Py.lit "012") = 12.
Proof.
  destruct (make_id_keeps_the_index (Py.lit "YQ==") 12)
    as (Hid & _ & Hlen & _ & Hread & _); [lia|].
  split_and!; [exact Hid | exact Hlen | exact Hread].
Defined.

(** ** Batching (upload_to_neo4j.py) *)

Section batching.
Context {A : Type}.
Implicit Types it : list A.

Lemma batches_loop_spec (fuel size : nat) it :
  (0 < size)%nat → (length it < fuel)%nat →
  let chunks := Upload.batches_loop fuel it size in
  concat chunks = it
  ∧ Forall (λ c, (1 ≤ length c ≤ size)%nat) chunks
  ∧ ∀ (i : nat) c, chunks !! i = Some c → is_Some (chunks !! S i) →
                   length c = size.
Proof.
  intros Hsize. revert it. induction fuel as [|fuel IH]; intros it Hfuel; [lia|].
  simpl. destruct it as [|x it].
  { rewrite take_nil. split_and!; [done|constructor|done]. }
  destruct size as [|size]; [lia|].
  change (take (S size) (x :: it)) with (x :: take size it).
  change (drop (S size) (x :: it)) with (drop size it).
  destruct (IH (drop size it)) as (Hcat & Hall & Hfull).
  { rewrite length_drop. simpl in Hfuel. lia. }
  split_and!.
  - simpl. rewrite Hcat. f_equal. apply take_drop.
  - constructor; [|done]. simpl. rewrite length_take. lia.
  - intros [|i] c; simpl.
    + intros [= <-] [c' Hc']. simpl. rewrite length_take.
      destruct fuel as [|fuel]; [done|]. simpl in Hc'.
      destruct (drop size it) as [|y rest] eqn:Hdrop.
      { by rewrite take_nil in Hc'. }
      apply (f_equal length) in Hdrop. rewrite length_drop in Hdrop.
      simpl in Hdrop. lia.
    + apply Hfull.
Qed.

(** X19.  For a positive [size] of at most [sys.maxsize], [batches] cuts the
    items into chunks without losing, repeating or reordering any: the
    chunks, put end to end, are the items; no chunk is empty or longer than
    [size]; and every chunk but the last has exactly [size] items. *)
Theorem batches_partition (iterable : list A) (size : Z) :
  0 < size ≤ Upload.sys_maxsize →
  ∃ chunks,
    Upload.batches iterable size = Py.Ok chunks
    ∧ concat chunks = iterable
    ∧ Forall (λ c, 1 ≤ Py.len c ≤ size) chunks
    ∧ ∀ (i : nat) c, chunks !! i = Some c → is_Some (chunks !! S i) →
                     Py.len c = size.
Proof.
  intros Hsize. unfold Upload.batches.
  destruct (Z.ltb_spec size 0); [lia|].
  destruct (Z.ltb_spec Upload.sys_maxsize size); [lia|]. simpl.
  eexists. split; [done|].
  destruct (batches_loop_spec (S (length iterable)) (Z.to_nat size) iterable)
    as (Hcat & Hall & Hfull); [lia|lia|].
  split_and!; [done| |].
  - eapply Forall_impl; [exact Hall|]. intros c Hc. unfold Py.len.
    cbv beta in Hc. lia.
  - intros i c Hc Hnext. unfold Py.len. rewrite (Hfull i c Hc Hnext). lia.
Qed.

(** X20.  A [size] of zero makes [batches] yield nothing, whatever the
    items, and a negative one makes it raise ValueError. *)
Theorem batches_nonpositive_size (iterable : list A) (k : positive) :
  Upload.batches iterable 0 = Py.Ok []
  ∧ Upload.batches iterable (Z.neg k) = Py.Err Py.ValueError.
Proof. by split. Qed.

End batching.

Lemma batches_partition_witness :
  ∃ chunks,
    Upload.batches [1; 2; 3; 4; 5; 6; 7] 3 = Py.Ok chunks
    ∧ concat chunks = [1; 2; 3; 4; 5; 6; 7]
    ∧ Forall (λ c, 1 ≤ Py.len c ≤ 3) chunks
    ∧ ∀ (i : nat) c, chunks !! i = Some c → is_Some (chunks !! S i) →
                     Py.len c = 3.
Proof.
  apply (batches_partition [1; 2; 3; 4; 5; 6; 7] 3).
  split; [lia|]. vm_compute. discriminate.
Defined.

(** ** The length of a window (text_splitter.py) *)

Section window_length.
Import SentenceTextSplitter.
Variable self : t.
Variable all_text : Py.str.

(** The scan leaves the cursor within the search limit. *)
Lemma scan_limit (end_ : Z) (fuel : nat) (cursor lwb cursor' lwb' : Z) :
  cursor ≤ end_ + Z.max 0 (sentence_search_limit self) →
  scan self all_text (Py.len all_text) end_ fuel cursor lwb
  = Py.Ok (cursor', lwb') →
  cursor' ≤ end_ + Z.max 0 (sentence_search_limit self).
Proof.
  revert cursor lwb. induction fuel as [|fuel IH]; intros cursor lwb Hc; simpl.
  - intros [= <- <-]. lia.
  - destruct (cursor <? Py.len all_text); simpl; [|intros [= <- <-]; lia].
    destruct (Z.ltb_spec (cursor - end_) (sentence_search_limit self)); simpl;
      [|intros [= <- <-]; lia].
    destruct (Py.getitem all_text cursor) as [c|e]; simpl; [|done].
    destruct (Py.contains (sentence_endings self) c); [intros [= <- <-]; lia|].
    apply IH. lia.
Qed.

(** X21.  The window-extension step moves the end of a window forward only,
    by at most [sentence_search_limit] characters and never past the end of
    the buffer: the cut lies between the initial [end] and the smaller of
    [end + sentence_search_limit] and the length of the buffer. *)
Theorem window_cut_bounds (end_ cursor lwb : Z) :
  end_ ≤ Py.len all_text →
  extend self all_text (Py.len all_text) end_ = Py.Ok (cursor, lwb) →
  end_ ≤ cut (Py.len all_text) cursor lwb
       ≤ Z.min (end_ + Z.max 0 (sentence_search_limit self)) (Py.len all_text).
Proof.
  intros He Hext. unfold extend in Hext.
  assert (cursor ≤ end_ + Z.max 0 (sentence_search_limit self)) as Hlim.
  { eapply scan_limit; [|exact Hext]. lia. }
  apply scan_bounds in Hext; [|done]. unfold cut.
  destruct (cursor <? Py.len all_text); simpl; [|lia].
  destruct (Z.ltb_spec 0 lwb); lia.
Qed.

End window_length.

Lemma window_cut_bounds_witness :
  4 ≤ SentenceTextSplitter.cut 12 7 4 ≤ Z.min (4 + Z.max 0 100) 12.
Proof.
  apply (window_cut_bounds (SentenceTextSplitter.init 500 4 0 100)
           (Py.lit "aaaa bb. ccc") 4 7 4).
  - vm_compute. discriminate.
  - reflexivity.
Defined.

(** ** General conversation (backend/main.py) *)

Section general_conversation.
Import Backend.

Lemma startswith_app (word rest : Py.str) : startswith (word ++ rest) word = true.
Proof.
  induction word as [|w word IH]; [done|]. simpl. by rewrite N.eqb_refl, IH.
Qed.

Lemma startswith_prefix (s word : Py.str) :
  startswith s word = true → ∃ rest, s = word ++ rest.
Proof.
  revert s. induction word as [|w word IH]; intros s; [by exists s|].
  destruct s as [|c s]; [done|]. simpl.
  intros [Hw [rest ->]%IH]%andb_prop. apply N.eqb_eq in Hw as ->.
  by exists rest.
Qed.

Lemma str_contains_substring (s word : Py.str) :
  str_contains s word = true ↔ substring word s.
Proof.
  split.
  - induction s as [|c s IH]; simpl.
    + rewrite orb_false_r. intros [rest ->]%startswith_prefix. by exists [], rest.
    + intros [Hs|Hs]%orb_prop.
      * apply startswith_prefix in Hs as [rest ->]. by exists [], rest.
      * destruct (IH Hs) as (pre & post & ->). by exists (c :: pre), post.
  - intros (pre & post & ->). induction pre as [|c pre IH]; simpl.
    + assert (∀ s, startswith s word = true → str_contains s word = true)
        as Hs by (intros [|??] Hw; simpl; by rewrite Hw).
      apply Hs, startswith_app.
    + by rewrite IH, orb_true_r.
Qed.

(** X22.  A query is taken for general conversation, and answered without a
    search of the site, exactly when one of the six phrases occurs anywhere
    in its lower-case form, inside a word too: every query that has the
    letters [hi] in a row is one. *)
Theorem is_general_characterised (user_input : Py.str) :
  (is_general user_input = true
   ↔ ∃ word, word ∈ GENERAL_WORDS ∧ substring word user_input)
  ∧ ∀ pre post, is_general (pre ++ Py.lit "hi" ++ post) = true.
Proof.
  assert (∀ s, is_general s = true
               ↔ ∃ word, word ∈ GENERAL_WORDS ∧ substring word s) as Hiff.
  { intros s. unfold is_general. rewrite existsb_exists. split.
    - intros (word & Hin & Hc). exists word.
      split; [by apply list_elem_of_In|by apply str_contains_substring].
    - intros (word & Hin & Hc). exists word.
      split; [by apply list_elem_of_In|by apply str_contains_substring]. }
  split; [apply Hiff|]. intros pre post. apply Hiff.
  exists (Py.lit "hi"). split; [|by exists pre, post].
  apply list_elem_of_In. vm_compute. auto.
Qed.

End general_conversation.

(** ** The payload of an upload (upload_to_neo4j.py) *)

(** X23.  The payload item of a slice needs the keys ["id"], ["url"],
    ["title"], ["content"] and ["embedding"]: with all five it is built, and
    its title is ["website_title"] when the slice has one and ["title"]
    otherwise, its category defaulting to ["Uncategorized"]; without one of
    the five a KeyError for a missing one is raised, for ["title"] too when
    ["website_title"] is there. *)
Theorem payload_item_keys (d : gmap string Py.value) :
  match Upload.payload_item d with
  | Upload.Got i =>
      Forall (λ k, is_Some (d !! k))
        ["id"; "url"; "title"; "content"; "embedding"]%string
      ∧ Some (Upload.item_title i) = d !! "website_title" ∪ d !! "title"
      ∧ Upload.item_category i
        = default (Py.VStr "Uncategorized") (d !! "category")
  | Upload.KeyError key =>
      key ∈ ["id"; "url"; "title"; "content"; "embedding"]%string
      ∧ d !! key = None
  end.
Proof.
  unfold Upload.payload_item, Upload.subscript.
  destruct (d !! "id") eqn:Hid; simpl; [|split; [set_solver|done]].
  destruct (d !! "url") eqn:Hurl; simpl; [|split; [set_solver|done]].
  destruct (d !! "title") eqn:Htitle; simpl; [|split; [set_solver|done]].
  destruct (d !! "content") eqn:Hcontent; simpl; [|split; [set_solver|done]].
  destruct (d !! "embedding") eqn:Hemb; simpl; [|split; [set_solver|done]].
  split_and!; [|by destruct (d !! "website_title")|done].
  repeat constructor; by eexists.
Qed.

(** ** The order of the page numbers *)

Section page_order.
Import SentenceTextSplitter.

Lemma len_concat_take_mono (blocks : list Py.str) (i j : nat) :
  (i ≤ j)%nat →
  Py.len (concat (take i blocks)) ≤ Py.len (concat (take j blocks)).
Proof.
  intros Hij. replace j with (i + (j - i))%nat by lia.
  rewrite <- take_take_drop, concat_app, len_app.
  pose proof (len_nonneg (concat (take (j - i) (drop i blocks)))). lia.
Qed.

(** On loaded pages the locator does not go back when the offset grows. *)
Lemma load_blocks_find_page_mono meta blocks (a b na nb : Z) :
  0 ≤ a ≤ b → b < Py.len (concat blocks) →
  _find_page (Slices.load_blocks meta 0 0 blocks) a = Py.Ok na →
  _find_page (Slices.load_blocks meta 0 0 blocks) b = Py.Ok nb →
  na ≤ nb.
Proof.
  intros Hab Hb Ha' Hb'.
  destruct (load_blocks_find_page meta 0 0 blocks a) as (ia & pa & Hfa & Hpa & Hina);
    [lia|].
  destruct (load_blocks_find_page meta 0 0 blocks b) as (ib & pb & Hfb & Hpb & Hinb);
    [lia|].
  rewrite Ha' in Hfa. rewrite Hb' in Hfb. injection Hfa as ->. injection Hfb as ->.
  destruct (decide (ia ≤ ib)%nat) as [|Hlt]; [lia|]. exfalso.
  pose proof (lookup_lt_Some _ _ _ Hpa) as Hla.
  pose proof (lookup_lt_Some _ _ _ Hpb) as Hlb.
  rewrite load_blocks_length in Hla, Hlb.
  destruct (lookup_lt_is_Some_2 blocks ia Hla) as [ta Hta].
  destruct (lookup_lt_is_Some_2 blocks ib Hlb) as [tb Htb].
  rewrite (load_blocks_lookup _ _ _ _ _ _ Hta) in Hpa.
  rewrite (load_blocks_lookup _ _ _ _ _ _ Htb) in Hpb.
  injection Hpa as <-. injection Hpb as <-. simpl in *.
  pose proof (len_concat_take_mono blocks (S ib) ia ltac:(lia)) as Hmono.
  unfold Py.str in *.
  rewrite (take_S_r _ _ _ Htb), concat_app, len_app in Hmono.
  simpl in Hmono. rewrite app_nil_r in Hmono. lia.
Qed.

Lemma sorted_constant_app (n : Z) (xs ys : list Z) :
  Forall (λ x, x = n) xs → Forall (λ y, n ≤ y) ys →
  StronglySorted Z.le ys → StronglySorted Z.le (xs ++ ys).
Proof.
  intros Hxs Hys Hs. induction Hxs as [|x xs -> Hxs IH]; [done|].
  simpl. constructor; [done|]. apply Forall_app. split; [|done].
  eapply Forall_impl; [exact Hxs|]. intros ? ->. lia.
Qed.

Context `{Encoder}.
Variable self : t.

(** From a given [start] on, the page numbers of the chunks do not go down
    and are not below the page of [start]. *)
Lemma window_loop_page_order meta blocks (rfuel fuel : nat) (start : Z) :
  0 ≤ section_overlap self ≤ max_section_length self →
  max_section_length self < Py.len (concat blocks) →
  0 ≤ start ≤ Py.len (concat blocks) - section_overlap self →
  let pages := Slices.load_blocks meta 0 0 blocks in
  let nums := SplitPage.page_num <$>
                yielded (window_loop self pages (concat blocks)
                           (Py.len (concat blocks)) rfuel fuel start) in
  StronglySorted Z.le nums
  ∧ ∀ n, _find_page pages start = Py.Ok n → Forall (λ y, n ≤ y) nums.
Proof.
  intros Hov Hlen. revert start.
  induction fuel as [|fuel IH]; intros start Hstart pages nums; subst nums;
    simpl; [split; [constructor|by constructor]|].
  destruct (Z.ltb_spec start (Py.len (concat blocks))) as [Hlt|];
    [|split; [constructor|by constructor]].
  set (end_ := Z.min _ _).
  destruct (extend self (concat blocks) (Py.len (concat blocks)) end_)
    as [[cursor lwb]|e] eqn:Hext; simpl; [|split; [constructor|by constructor]].
  pose proof (cut_bound self (concat blocks) end_ cursor lwb ltac:(lia) Hext)
    as Hcut.
  unfold extend in Hext. apply scan_bounds in Hext; [|lia].
  assert (end_ ≤ cut (Py.len (concat blocks)) cursor lwb) as Hcut'.
  { unfold cut. destruct (cursor <? _); simpl; [|lia].
    destruct (Z.ltb_spec 0 lwb); lia. }
  set (c := cut (Py.len (concat blocks)) cursor lwb) in *.
  destruct (_find_page pages start) as [page_num|e] eqn:Hpage; simpl;
    [|split; [constructor|by constructor]].
  pose proof (split_chunks_invariant self rfuel page_num
                (Py.slice (concat blocks) start c)) as Hchunks.
  assert (Forall (λ x, x = page_num)
            (SplitPage.page_num <$>
               yielded (split_page_by_max_tokens self rfuel page_num
                          (Py.slice (concat blocks) start c)))) as Hconst.
  { apply Forall_fmap. eapply Forall_impl; [exact Hchunks|].
    by intros ? (? & _). }
  unfold g_seq.
  destruct (stopped (split_page_by_max_tokens self rfuel page_num
                       (Py.slice (concat blocks) start c))); simpl.
  2,3: split; [|intros n [= <-]; eapply Forall_impl; [exact Hconst|];
                 intros ? ->; simpl; lia];
       rewrite <- (app_nil_r (_ <$> _));
       by apply (sorted_constant_app page_num); [|constructor|constructor].
  rewrite fmap_app.
  destruct (IH (c - section_overlap self)) as [Hsorted Hlow]; [lia|].
  assert (Forall (λ y, page_num ≤ y)
            (SplitPage.page_num <$>
               yielded (window_loop self pages (concat blocks)
                          (Py.len (concat blocks)) rfuel fuel
                          (c - section_overlap self)))) as Hrest.
  { destruct (Z.lt_ge_cases (c - section_overlap self) (Py.len (concat blocks)))
      as [Hin|Hout].
    - destruct (find_page_no_raise pages (c - section_overlap self))
        as [n' Hn'].
      { intros Hnil. subst pages. by rewrite Hnil in Hpage. }
      eapply Forall_impl; [exact (Hlow n' Hn')|]. intros y Hy.
      cbv beta in Hy.
      pose proof (load_blocks_find_page_mono meta blocks start
                    (c - section_overlap self) page_num n'
                    ltac:(lia) Hin Hpage Hn'). lia.
    - destruct fuel as [|fuel]; simpl; [constructor|].
      destruct (Z.ltb_spec (c - section_overlap self) (Py.len (concat blocks)));
        [lia|constructor]. }
  split.
  - by apply (sorted_constant_app page_num).
  - intros n [= <-]. apply Forall_app. split; [|done].
    eapply Forall_impl; [exact Hconst|]. intros ? ->. simpl. lia.
Qed.

(** X24.  For the pages that [load_pages] makes and a splitter with
    [0 <= section_overlap <= max_section_length], the page numbers of the
    chunks of [split_pages] never go down from one chunk to the next. *)
Theorem sentence_page_numbers_do_not_decrease (path stem : string)
        (d : Slices.doc) (fuel : nat) :
  0 ≤ section_overlap self ≤ max_section_length self →
  StronglySorted Z.le
    (SplitPage.page_num <$>
       yielded (split_pages self fuel (Slices.load_pages path stem d))).
Proof.
  intros Hov. unfold split_pages, Slices.load_pages.
  set (meta := Slices.fill_meta _ _ _). set (blocks := match _ with inl _ => _ | inr b => b end).
  rewrite load_blocks_join.
  destruct (negb _); [constructor|].
  destruct (Z.leb_spec (Py.len (concat blocks)) (max_section_length self)).
  - destruct (_find_page _ 0) as [page_num|e]; simpl; [|constructor].
    rewrite <- (app_nil_r (_ <$> _)).
    apply (sorted_constant_app page_num); [|constructor|constructor].
    apply Forall_fmap. eapply Forall_impl; [apply split_chunks_invariant|].
    by intros ? (? & _).
  - apply window_loop_page_order; [done|done|lia].
Qed.

End page_order.

Lemma sentence_page_numbers_do_not_decrease_witness :
  StronglySorted Z.le
    (SplitPage.page_num <$>
       yielded (SentenceTextSplitter.split_pages (H := Examples.char_encoder)
                  (SentenceTextSplitter.init 500 4 0 100) 13
                  (Slices.load_pages "a_text.json" "a_text"
                     (Slices.Doc None
                        (Some (inr [Py.lit "aaaa "; Py.lit "bb. ccc"])))))).
Proof.
  apply (@sentence_page_numbers_do_not_decrease Examples.char_encoder
           (SentenceTextSplitter.init 500 4 0 100) "a_text.json" "a_text"
           (Slices.Doc None (Some (inr [Py.lit "aaaa "; Py.lit "bb. ccc"])))
           13).
  vm_compute. split; discriminate.
Defined.
